(** * pact-go v3: the HTTP verification proxy (v3/http_verifier.go)

    A shallow embedding of the middleware pipeline, the state-setup
    protocol handler, the verification orchestrator [verifyProviderRaw]
    and the readiness waiter [waitForPort], with the properties the
    specification states about them.

    Conventions.
    - A Go [error] is its message; the nil error is [None].
    - A Go [int] / [time.Duration] is a [Z]; durations are nanoseconds.
    - User code (hooks, state handlers, the provider) acts on a state of
      type [U]; every call the middlewares make and every status they
      write is recorded as an [Event], in order.
    - [log.Println]/[log.Printf] output is not modelled; [log.Fatal]
      is, because it ends the process.
    - encoding/json is a parameter of the middlewares; module [Json]
      gives what it answers on inputs of ASCII bytes without escapes. *)

From Stdlib Require Import ZArith List Lia DecimalString.
From stdpp Require Import base option strings gmap.

Set Implicit Arguments.
Set Default Proof Using "Type".

Local Open Scope string_scope.
Local Open Scope list_scope.

(** ** Go runtime and standard library pieces *)

Definition error : Type := string.

(** [fmt.Sprintf("%d", n)] for a Go int. *)
Definition formatInt (n : Z) : string := NilZero.string_of_int (Z.to_int n).

(** net/http status codes. *)
Definition StatusOK : Z := 200.
Definition StatusInternalServerError : Z := 500.

(** time package constants, in nanoseconds. *)
Definition Millisecond : Z := 1000000.
Definition Second : Z := 1000 * Millisecond.

(** [const providerStatesSetupPath = "/__setup/"] *)
Definition providerStatesSetupPath : string := "/__setup/".

(** ** Requests, states and events *)

(** The part of [*http.Request] the middlewares read: [r.URL.Path] and
    the body as [io.Copy] collects it. *)
Record Request : Type := mkRequest {
  Path : string;
  Body : string
}.

(** [type stateHandlerAction struct { Action string; State string }] *)
Record stateHandlerAction : Type := mkAction {
  Action : string;
  State : string
}.

(** The zero value of [var state stateHandlerAction]. *)
Definition zeroAction : stateHandlerAction := {| Action := ""; State := "" |}.

(** [ProviderStateV3{Name: ...}], the argument of a state handler. *)
Record ProviderStateV3 : Type := mkProviderState {
  Name : string
}.

(** What a handler run does, as seen from outside. *)
Inductive Event : Type :=
| EvBeforeEach                           (* err := BeforeEach() *)
| EvAfterEach                            (* err := AfterEach() *)
| EvStateHandler (arg : ProviderStateV3) (* sf(ProviderStateV3{...}) *)
| EvWriteHeader (status : Z)             (* w.WriteHeader(status) *)
| EvForward (path : string).             (* the proxy's final handler *)

Definition isBeforeEach (e : Event) : bool :=
  match e with EvBeforeEach => true | _ => false end.
Definition isAfterEach (e : Event) : bool :=
  match e with EvAfterEach => true | _ => false end.
Definition isStateHandler (e : Event) : bool :=
  match e with EvStateHandler _ => true | _ => false end.
Definition isForward (e : Event) : bool :=
  match e with EvForward _ => true | _ => false end.

(** How many events of a trace satisfy [p]. *)
Definition count (p : Event -> bool) (t : list Event) : nat :=
  length (List.filter p t).

(** The statuses passed to [WriteHeader], in order. *)
Fixpoint headersWritten (t : list Event) : list Z :=
  match t with
  | [] => []
  | EvWriteHeader s :: t' => s :: headersWritten t'
  | _ :: t' => headersWritten t'
  end.

(** The status of the response as [WriteHeader] sets it: net/http
    keeps the first call and ignores later ones. (Writing the body is
    not an event here; a handler that writes it before any
    [WriteHeader] has sent 200 by then.) *)
Definition responseStatus (t : list Event) : option Z :=
  head (headersWritten t).

(** ** The handler monad: user state threaded, events appended *)

Section Verifier.

Variable U : Type.

Definition M (A : Type) : Type := U -> A * U * list Event.

Definition ret {A} (a : A) : M A := fun u => (a, u, []).

Definition bind {A B} (m : M A) (f : A -> M B) : M B :=
  fun u =>
    let '(a, u1, t1) := m u in
    let '(b, u2, t2) := f a u1 in
    (b, u2, t1 ++ t2).

Definition emit (e : Event) : M unit := fun u => (tt, u, [e]).

Notation "x <- m ;; k" := (bind m (fun x => k))
  (at level 100, m at next level, right associativity).
Notation "m ;;; k" := (bind m (fun _ => k))
  (at level 100, right associativity).

(** The result, final user state and trace of a run. *)
Definition resultOf {A} (r : A * U * list Event) : A := fst (fst r).
Definition userOf {A} (r : A * U * list Event) : U := snd (fst r).
Definition traceOf {A} (r : A * U * list Event) : list Event := snd r.

(** [type Hook func() error] *)
Definition Hook : Type := U -> option error * U.

(** [type StateHandler func(ProviderStateV3) error] *)
Definition StateHandler : Type := ProviderStateV3 -> U -> option error * U.

(** [http.Handler]: [ServeHTTP(w, r)]; the writer [w] is the trace. *)
Definition Handler : Type := Request -> M unit.

(** [proxy.Middleware = func(http.Handler) http.Handler] *)
Definition Middleware : Type := Handler -> Handler.

(** Calling a hook: the call is recorded under [ev], then the hook runs. *)
Definition callHook (ev : Event) (h : Hook) : M (option error) :=
  fun u => let '(err, u') := h u in (err, u', [ev]).

(** Calling a state handler with [arg]. *)
Definition callStateHandler (sf : StateHandler) (arg : ProviderStateV3)
  : M (option error) :=
  fun u => let '(err, u') := sf arg u in (err, u', [EvStateHandler arg]).

(** [w.WriteHeader(status)] *)
Definition WriteHeader (status : Z) : M unit := emit (EvWriteHeader status).

(** [json.Unmarshal(data, &state)]: encoding/json is outside this
    package; it receives the bytes and the current value of [state] and
    gives back the error and the value [state] holds afterwards. *)
Variable json_Unmarshal :
  string -> stateHandlerAction -> option error * stateHandlerAction.

(** *** BeforeEachMiddleware *)
Definition BeforeEachMiddleware (BeforeEach : Hook) : Middleware :=
  fun next r =>
    (if String.eqb (Path r) providerStatesSetupPath then
       err <- callHook EvBeforeEach BeforeEach ;;
       match err with
       | Some _ => WriteHeader StatusInternalServerError
       | None => ret tt
       end
     else ret tt) ;;;
    next r.

(** *** AfterEachMiddleware *)
Definition AfterEachMiddleware (AfterEach : Hook) : Middleware :=
  fun next r =>
    next r ;;;
    if negb (String.eqb (Path r) providerStatesSetupPath) then
      err <- callHook EvAfterEach AfterEach ;;
      match err with
      | Some _ => WriteHeader StatusInternalServerError
      | None => ret tt
      end
    else ret tt.

(** *** stateHandlerMiddleware

    [type StateHandlers map[string]StateHandler]; each Go [return] is
    the end of its branch. *)
Definition stateHandlerMiddleware (stateHandlers : gmap string StateHandler)
  : Middleware :=
  fun next r =>
    if String.eqb (Path r) providerStatesSetupPath then
      let '(err, state) := json_Unmarshal (Body r) zeroAction in
      match err with
      | Some _ => WriteHeader StatusInternalServerError
      | None =>
          match lookup (A:=StateHandler) (State state) stateHandlers with
          | None => WriteHeader StatusOK
          | Some sf =>
              err <- callStateHandler sf {| Name := State state |} ;;
              match err with
              | Some _ => WriteHeader StatusInternalServerError
              | None => WriteHeader StatusOK
              end
          end
      end
    else next r.

(** ** The verification orchestrator *)

(** [type HTTPVerifier struct { ClientTimeout time.Duration }] *)
Record HTTPVerifier : Type := mkVerifier {
  ClientTimeout : Z
}.

(** [validateConfig] defaults the timeout in place and returns nil. *)
Definition validateConfig (v : HTTPVerifier) : option error * HTTPVerifier :=
  if Z.eqb (ClientTimeout v) 0
  then (None, {| ClientTimeout := 10 * Second |})
  else (None, v).

(** [*tls.Config] and the [outputWriter] are handed on untouched. *)
Variable TLSConfig : Type.
Variable outputWriter : Type.

(** Modelled from the spec: the declaration of [VerifyRequest] is in
    another file of the package. These are the fields
    [verifyProviderRaw] reads or sets; a nil func or pointer is [None],
    and the zero value of a string is the empty string, of a slice or
    map the empty one, of a bool [false]. *)
Record VerifyRequest : Type := mkVerifyRequest {
  ProviderBaseURL : string;
  PactURLs : list string;
  PactFiles : list string;
  PactDirs : list string;
  BrokerURL : string;
  Tags : list string;
  BrokerUsername : string;
  BrokerPassword : string;
  BrokerToken : string;
  PublishVerificationResults : bool;
  ProviderVersion : string;
  Provider : string;
  ProviderStatesSetupURL : string;
  ProviderTags : list string;
  FailIfNoPactsFound : bool;
  BeforeEach : option Hook;
  AfterEach : option Hook;
  StateHandlers : gmap string StateHandler;
  RequestFilter : option Middleware;
  CustomTLSConfig : option TLSConfig
}.

(** The fields of [*url.URL] the orchestrator reads. *)
Record URL : Type := mkURL {
  Scheme : string;
  Host : string;
  URLPath : string
}.

(** net/url: [url.Parse] gives a pointer (nil is [None]) and an error;
    [u.Hostname()] and [u.Port()] split [u.Host]. *)
Variable url_Parse : string -> option URL * option error.
Variable Hostname : URL -> string.
Variable Port : URL -> string.

(** [proxy.Options], as the orchestrator fills it ([Middleware_] is
    its field [Middleware], [OptCustomTLSConfig] its [CustomTLSConfig]). *)
Record Options : Type := mkOptions {
  TargetAddress : string;
  TargetScheme : string;
  TargetPath : string;
  Middleware_ : list Middleware;
  InternalRequestPathPrefix : string;
  OptCustomTLSConfig : option TLSConfig
}.

(** [proxy.HTTPReverseProxy(opts)] gives the port and an error. *)
Variable HTTPReverseProxy : Options -> Z * option error.

(** [var waitForPort = func(port, network, address, timeoutDuration,
    message) error]: a package variable, so the orchestrator calls
    whatever it holds. *)
Variable waitForPortVar : Z -> string -> string -> Z -> string -> option error.

(** [verificationRequest.verify(writer)], the external engine. *)
Variable verify : VerifyRequest -> outputWriter -> option error.

(** What a run of the orchestrator does, in order. *)
Inductive RunEvent : Type :=
| EvProxyStart (opts : Options) (port : Z) (err : option error)
| EvWaitForPort (port : Z) (timeout : Z) (message : string)
    (portErr : option error)
| EvFatal (err : option error)
| EvVerify (vr : VerifyRequest).

(** How a run ends: it returns its error value, panics, or the process
    exits ([log.Fatal] calls [os.Exit(1)]). *)
Inductive Outcome : Type :=
| Returned (err : option error)
| Panicked
| Exited (code : Z).

(** Lines 46-62: the middleware slice, grown by [append]. *)
Definition buildMiddleware (request : VerifyRequest) : list Middleware :=
  let m := [] in
  let m := match BeforeEach request with
           | Some h => m ++ [BeforeEachMiddleware h]
           | None => m
           end in
  let m := match AfterEach request with
           | Some h => m ++ [AfterEachMiddleware h]
           | None => m
           end in
  let m := if Nat.ltb 0 (size (StateHandlers request))
           then m ++ [stateHandlerMiddleware (StateHandlers request)]
           else m in
  let m := match RequestFilter request with
           | Some f => m ++ [f]
           | None => m
           end in
  m.

(** Lines 82-85: the state-setup URL. *)
Definition setupURL (request : VerifyRequest) (port : Z) : string :=
  if String.eqb (ProviderStatesSetupURL request) ""
     && Nat.ltb 0 (size (StateHandlers request))
  then "http://localhost:" +:+ formatInt port +:+ providerStatesSetupPath
  else ProviderStatesSetupURL request.

(** Lines 88-108: the request for the engine; fields the literal does
    not name keep their zero value. *)
Definition verificationRequest (request : VerifyRequest) (port : Z)
  : VerifyRequest :=
  {| ProviderBaseURL := "http://localhost:" +:+ formatInt port;
     PactURLs := PactURLs request;
     PactFiles := PactFiles request;
     PactDirs := PactDirs request;
     BrokerURL := BrokerURL request;
     Tags := Tags request;
     BrokerUsername := BrokerUsername request;
     BrokerPassword := BrokerPassword request;
     BrokerToken := BrokerToken request;
     PublishVerificationResults := PublishVerificationResults request;
     ProviderVersion := ProviderVersion request;
     Provider := Provider request;
     ProviderStatesSetupURL := setupURL request port;
     ProviderTags := ProviderTags request;
     FailIfNoPactsFound := FailIfNoPactsFound request;
     BeforeEach := None;
     AfterEach := None;
     StateHandlers := ∅;
     RequestFilter := None;
     CustomTLSConfig := None |}.

(** The message handed to [waitForPort]. *)
Definition proxyTimeoutMessage (port : Z) : string :=
  "Timed out waiting for http verification proxy on port "
  +:+ formatInt port +:+ " - check for errors".

(** [verifyProviderRaw]. The error of [url.Parse] is overwritten
    unread, and [u.Hostname()] on a nil [u] panics; the error of
    [proxy.HTTPReverseProxy] is only read by [log.Fatal], which ends the
    process before [return portErr]. *)
Definition verifyProviderRaw (v : HTTPVerifier) (request : VerifyRequest)
    (writer : outputWriter) : Outcome * list RunEvent :=
  let '(err, v) := validateConfig v in
  match err with
  | Some e => (Returned (Some e), [])
  | None =>
      let '(u, err) := url_Parse (ProviderBaseURL request) in
      let m := buildMiddleware request in
      match u with
      | None => (Panicked, [])
      | Some u =>
          let opts :=
            {| TargetAddress := Hostname u +:+ ":" +:+ Port u;
               TargetScheme := Scheme u;
               TargetPath := URLPath u;
               Middleware_ := m;
               InternalRequestPathPrefix := providerStatesSetupPath;
               OptCustomTLSConfig := CustomTLSConfig request |} in
          let '(port, err) := HTTPReverseProxy opts in
          let vr := verificationRequest request port in
          let message := proxyTimeoutMessage port in
          let portErr :=
            waitForPortVar port "tcp" "localhost" (ClientTimeout v) message in
          let t := [EvProxyStart opts port err;
                    EvWaitForPort port (ClientTimeout v) message portErr] in
          match portErr with
          | Some _ => (Exited 1, t ++ [EvFatal err])
          | None => (Returned (verify vr writer), t ++ [EvVerify vr])
          end
      end
  end.

(** What a run reports to [*testing.T]: one entry per [t.Run], with
    its name and the errors [t.Error] logged in it (a subtest with an
    error has failed). *)
Inductive TestEvent : Type :=
| TRun (name : string) (errors : list error).

(** [VerifyProvider]: the test handle [t] is also the writer handed
    to [verifyProviderRaw]. The subtest is reached only when that call
    returns. *)
Definition VerifyProvider (v : HTTPVerifier) (t : outputWriter)
    (request : VerifyRequest) : Outcome * list RunEvent * list TestEvent :=
  let '(out, tr) := verifyProviderRaw v request t in
  match out with
  | Returned err =>
      (Returned err, tr,
       [TRun "Provider pact verification"
          match err with
          | Some e => [e]
          | None => []
          end])
  | Panicked => (Panicked, tr, [])
  | Exited code => (Exited code, tr, [])
  end.

End Verifier.

Arguments EvWaitForPort {U TLSConfig} port timeout message portErr.
Arguments EvFatal {U TLSConfig} err.

(** ** The readiness waiter *)

Section Waiter.

(** [net.Dial(network, address)] called at time [t] (nanoseconds since
    [waitForPort] was entered): its error, and how long the call took. *)
Variable net_Dial : string -> string -> Z -> option error * N.

(** [select] when both channels become ready at the same instant [t]:
    [true] runs the timeout case, [false] the 50ms case. *)
Variable selectTimeoutFirst : Z -> bool.

(** [timeoutDuration] under the verb [%s], that is [Duration.String()]. *)
Variable Duration_String : Z -> string.

(** One connection attempt: when it began, how long it took, whether
    it connected. *)
Record Attempt : Type := mkAttempt {
  began : Z;
  took : Z;
  connected : bool
}.

(** What a call of [waitForPort] did: the error it returned, the
    attempts it made, and when it returned. *)
Record WaitResult : Type := mkWaitResult {
  waitErr : option error;
  attempts : list Attempt;
  returnedAt : Z
}.

(** [50 * time.Millisecond] *)
Definition pollInterval : Z := 50 * Millisecond.

(** [fmt.Errorf("Expected server to start < %s. %s", timeoutDuration,
    message)] *)
Definition timeoutError (timeoutDuration : Z) (message : string) : error :=
  "Expected server to start < " +:+ Duration_String timeoutDuration
  +:+ ". " +:+ message.

(** The [for { select { ... } }] loop, entered at time [now] with the
    attempts [log] behind it. [time.After(timeoutDuration)] was armed
    at time 0, so its channel is ready from [timeoutDuration] on (at
    once when that is not positive); each turn arms a fresh
    [time.After(50ms)], ready at [now + pollInterval]. The case whose
    channel is ready first runs. *)
Fixpoint waitLoop (fuel : nat) (port : Z) (network address : string)
    (timeoutDuration : Z) (message : string) (now : Z) (log : list Attempt)
  : option WaitResult :=
  match fuel with
  | O => None
  | S fuel' =>
      let tick := (now + pollInterval)%Z in
      if Z.ltb timeoutDuration tick
         || (Z.eqb timeoutDuration tick && selectTimeoutFirst tick)
      then
        Some {| waitErr := Some (timeoutError timeoutDuration message);
                attempts := log;
                returnedAt := Z.max now timeoutDuration |}
      else
        let '(err, d) :=
          net_Dial network (address +:+ ":" +:+ formatInt port) tick in
        match err with
        | None =>
            Some {| waitErr := None;
                    attempts := log ++ [mkAttempt tick (Z.of_N d) true];
                    returnedAt := tick + Z.of_N d |}
        | Some _ =>
            waitLoop fuel' port network address timeoutDuration message
              (tick + Z.of_N d) (log ++ [mkAttempt tick (Z.of_N d) false])
        end
  end.

(** Turns of the loop that can begin before the timeout channel is
    ready, plus the one that takes the timeout case. *)
Definition waitFuel (timeoutDuration : Z) : nat :=
  S (Z.to_nat (timeoutDuration / pollInterval)).

(** [waitForPort], from its entry at time 0. *)
Definition waitForPort (port : Z) (network address : string)
    (timeoutDuration : Z) (message : string) : option WaitResult :=
  waitLoop (waitFuel timeoutDuration) port network address
    timeoutDuration message 0 [].

(** The error [waitForPort] returns, as the package variable holds it
    unless a test replaces it. [waitLoop] never runs out of fuel there
    (see [waitLoop_returns]), so the last branch is not taken. *)
Definition waitForPortErr (port : Z) (network address : string)
    (timeoutDuration : Z) (message : string) : option error :=
  match waitForPort port network address timeoutDuration message with
  | Some res => waitErr res
  | None => Some (timeoutError timeoutDuration message)
  end.

(** Each attempt begins one [pollInterval] after the loop was entered
    or the attempt before it came back. *)
Fixpoint paced (start : Z) (l : list Attempt) : Prop :=
  match l with
  | [] => True
  | a :: l' =>
      began a = (start + pollInterval)%Z /\ (0 <= took a)%Z
      /\ paced (began a + took a) l'
  end.

End Waiter.

(** ** encoding/json on plain input

    [json.Unmarshal(data, &state)] for a [state] of type
    [stateHandlerAction], as the standard library does it: the whole
    input is checked against the JSON grammar first, then the value is
    stored field by field. The model covers the inputs made of ASCII
    bytes without a backslash (no escape, no multi-byte rune: a JSON
    string is then its bytes and names fold as ASCII letters); on any
    other input it says nothing ([Beyond]). *)

Module Json.

Local Set Warnings "-register-all".

Inductive Value : Type :=
| Null
| Bool (b : bool)
| Number
| Str (s : string)
| Array (elements : list Value)
| Object (members : list (string * Value)).

(** The result of reading: a value, a syntax error, or an input the
    model does not cover. *)
Inductive Scan (A : Type) : Type :=
| Accepted (a : A)
| Rejected
| Beyond.
Arguments Accepted {A} a.
Arguments Rejected {A}.
Arguments Beyond {A}.

Definition code (c : Ascii.ascii) : N := Ascii.N_of_ascii c.
Definition quote : Ascii.ascii := Ascii.ascii_of_nat 34.
Definition backslash : Ascii.ascii := Ascii.ascii_of_nat 92.

(** The scanner's white space: space, tab, line feed, carriage return. *)
Definition isSpace (c : Ascii.ascii) : bool :=
  N.eqb (code c) 32 || N.eqb (code c) 9 || N.eqb (code c) 10
  || N.eqb (code c) 13.

Definition isDigit (c : Ascii.ascii) : bool :=
  N.leb 48 (code c) && N.leb (code c) 57.

Fixpoint skipSpace (s : string) : string :=
  match s with
  | String c r => if isSpace c then skipSpace r else s
  | EmptyString => s
  end.

(** The digits [s] begins with, and what follows them. *)
Fixpoint digits (s : string) : string * string :=
  match s with
  | String c r =>
      if isDigit c
      then let '(ds, rest) := digits r in (String c ds, rest)
      else (EmptyString, s)
  | EmptyString => (EmptyString, s)
  end.

(** [s] without the prefix [p], when it begins with it. *)
Fixpoint stripPrefix (p s : string) : option string :=
  match p, s with
  | EmptyString, _ => Some s
  | String a p', String b s' =>
      if Ascii.eqb a b then stripPrefix p' s' else None
  | String _ _, EmptyString => None
  end.

(** A string literal after its opening quote: its bytes up to the
    closing quote, and what follows. A control character is an error. *)
Fixpoint scanString (s : string) : Scan (string * string) :=
  match s with
  | EmptyString => Rejected
  | String c r =>
      if Ascii.eqb c quote then Accepted (EmptyString, r)
      else if N.ltb (code c) 32 then Rejected
      else if Ascii.eqb c backslash || N.leb 128 (code c) then Beyond
      else match scanString r with
           | Accepted (body, rest) => Accepted (String c body, rest)
           | Rejected => Rejected
           | Beyond => Beyond
           end
  end.

(** The exponent of a number, if any: [e] or [E], a sign if any, digits. *)
Definition scanExponent (s : string) : Scan string :=
  match s with
  | String c r =>
      if N.eqb (code c) 101 || N.eqb (code c) 69 then
        let r1 := match r with
                  | String sign r' =>
                      if N.eqb (code sign) 43 || N.eqb (code sign) 45
                      then r' else r
                  | EmptyString => r
                  end in
        match digits r1 with
        | (EmptyString, _) => Rejected
        | (_, rest) => Accepted rest
        end
      else Accepted s
  | EmptyString => Accepted s
  end.

(** The fraction of a number, if any: a dot and digits; then the
    exponent. *)
Definition scanFraction (s : string) : Scan string :=
  match s with
  | String c r =>
      if N.eqb (code c) 46 then
        match digits r with
        | (EmptyString, _) => Rejected
        | (_, rest) => scanExponent rest
        end
      else scanExponent s
  | EmptyString => Accepted s
  end.

(** A number: a minus sign if any, [0] or a digit from 1 to 9 and more
    digits, then fraction and exponent. Gives what follows it. *)
Definition scanNumber (s : string) : Scan string :=
  let s1 := match s with
            | String c r => if N.eqb (code c) 45 then r else s
            | EmptyString => s
            end in
  match s1 with
  | String c r =>
      if N.eqb (code c) 48 then scanFraction r
      else if isDigit c then scanFraction (snd (digits r))
      else Rejected
  | EmptyString => Rejected
  end.

(** [maxNestingDepth] of the scanner. *)
Definition maxNestingDepth : N := 10000.

Definition inside {A B : Type} (f : A -> B) (r : Scan (A * string))
  : Scan (B * string) :=
  match r with
  | Accepted (a, rest) => Accepted (f a, rest)
  | Rejected => Rejected
  | Beyond => Beyond
  end.

(** A value at the head of [s], inside [depth] arrays and objects;
    [scanMembers] and [scanElements] read what follows an opening brace
    or bracket, or a comma. Each call is on a shorter input, so the
    length of the input is fuel enough. *)
Fixpoint scanValue (fuel : nat) (depth : N) (s : string)
  : Scan (Value * string) :=
  match fuel with
  | O => Beyond
  | S fuel' =>
      match s with
      | EmptyString => Rejected
      | String c r =>
          if N.eqb (code c) 123 then
            if N.ltb maxNestingDepth (depth + 1) then Rejected
            else match skipSpace r with
                 | String c' r' =>
                     if N.eqb (code c') 125 then Accepted (Object [], r')
                     else inside Object
                            (scanMembers fuel' (depth + 1) (skipSpace r))
                 | EmptyString => Rejected
                 end
          else if N.eqb (code c) 91 then
            if N.ltb maxNestingDepth (depth + 1) then Rejected
            else match skipSpace r with
                 | String c' r' =>
                     if N.eqb (code c') 93 then Accepted (Array [], r')
                     else inside Array
                            (scanElements fuel' (depth + 1) (skipSpace r))
                 | EmptyString => Rejected
                 end
          else if Ascii.eqb c quote then inside Str (scanString r)
          else if N.eqb (code c) 45 || isDigit c then
            match scanNumber s with
            | Accepted rest => Accepted (Number, rest)
            | Rejected => Rejected
            | Beyond => Beyond
            end
          else if N.eqb (code c) 116 then
            match stripPrefix "true" s with
            | Some rest => Accepted (Bool true, rest)
            | None => Rejected
            end
          else if N.eqb (code c) 102 then
            match stripPrefix "false" s with
            | Some rest => Accepted (Bool false, rest)
            | None => Rejected
            end
          else if N.eqb (code c) 110 then
            match stripPrefix "null" s with
            | Some rest => Accepted (Null, rest)
            | None => Rejected
            end
          else Rejected
      end
  end
with scanMembers (fuel : nat) (depth : N) (s : string)
  : Scan (list (string * Value) * string) :=
  match fuel with
  | O => Beyond
  | S fuel' =>
      match s with
      | EmptyString => Rejected
      | String c r =>
          if Ascii.eqb c quote then
            match scanString r with
            | Accepted (key, r1) =>
                match skipSpace r1 with
                | String colon r2 =>
                    if N.eqb (code colon) 58 then
                      match scanValue fuel' depth (skipSpace r2) with
                      | Accepted (v, r3) =>
                          match skipSpace r3 with
                          | String c' r4 =>
                              if N.eqb (code c') 44 then
                                inside (cons (key, v))
                                  (scanMembers fuel' depth (skipSpace r4))
                              else if N.eqb (code c') 125
                              then Accepted ([(key, v)], r4)
                              else Rejected
                          | EmptyString => Rejected
                          end
                      | Rejected => Rejected
                      | Beyond => Beyond
                      end
                    else Rejected
                | EmptyString => Rejected
                end
            | Rejected => Rejected
            | Beyond => Beyond
            end
          else Rejected
      end
  end
with scanElements (fuel : nat) (depth : N) (s : string)
  : Scan (list Value * string) :=
  match fuel with
  | O => Beyond
  | S fuel' =>
      match scanValue fuel' depth s with
      | Accepted (v, r1) =>
          match skipSpace r1 with
          | String c' r2 =>
              if N.eqb (code c') 44 then
                inside (cons v) (scanElements fuel' depth (skipSpace r2))
              else if N.eqb (code c') 93 then Accepted ([v], r2)
              else Rejected
          | EmptyString => Rejected
          end
      | Rejected => Rejected
      | Beyond => Beyond
      end
  end.

(** Whether the model covers the input: ASCII bytes, no backslash. *)
Fixpoint plain (s : string) : bool :=
  match s with
  | EmptyString => true
  | String c r =>
      negb (Ascii.eqb c backslash) && N.ltb (code c) 128 && plain r
  end.

(** The whole input: white space, one value, white space. *)
Definition scan (data : string) : Scan Value :=
  if plain data then
    match scanValue (S (S (String.length data))) 0 (skipSpace data) with
    | Accepted (v, rest) =>
        match skipSpace rest with
        | EmptyString => Accepted v
        | String _ _ => Rejected
        end
    | Rejected => Rejected
    | Beyond => Beyond
    end
  else Beyond.

(** The fields of [stateHandlerAction], under their json names. *)
Inductive Field : Type := FAction | FState.

Definition lower (c : Ascii.ascii) : Ascii.ascii :=
  if N.leb 65 (code c) && N.leb (code c) 90
  then Ascii.ascii_of_N (code c + 32)
  else c.

Fixpoint foldName (s : string) : string :=
  match s with
  | EmptyString => EmptyString
  | String c r => String (lower c) (foldName r)
  end.

(** The field a key names: by its exact name first, else by its folded
    name. *)
Definition fieldOf (key : string) : option Field :=
  if String.eqb key "action" then Some FAction
  else if String.eqb key "state" then Some FState
  else if String.eqb (foldName key) "action" then Some FAction
  else if String.eqb (foldName key) "state" then Some FState
  else None.

Definition setField (f : Field) (s : string) (st : stateHandlerAction)
  : stateHandlerAction :=
  match f with
  | FAction => {| Action := s; State := State st |}
  | FState => {| Action := Action st; State := s |}
  end.

Definition kindOf (v : Value) : string :=
  match v with
  | Null => "null"
  | Bool _ => "bool"
  | Number => "number"
  | Str _ => "string"
  | Array _ => "array"
  | Object _ => "object"
  end.

Definition fieldName (f : Field) : string :=
  match f with FAction => "action" | FState => "state" end.

(** One member of the object: a string is stored in the field its key
    names, a null leaves it, any other value is a type error (the
    first one is kept and the decoding goes on); a key that names no
    field is skipped. *)
Definition storeMember (acc : option error * stateHandlerAction)
    (m : string * Value) : option error * stateHandlerAction :=
  let '(saved, st) := acc in
  match fieldOf (fst m) with
  | None => acc
  | Some f =>
      match snd m with
      | Str s => (saved, setField f s st)
      | Null => acc
      | v =>
          (match saved with
           | Some _ => saved
           | None =>
               Some ("json: cannot unmarshal " +:+ kindOf v
                     +:+ " into Go struct field stateHandlerAction."
                     +:+ fieldName f +:+ " of type string")
           end, st)
      end
  end.

(** The value into the struct: an object member by member, null with
    no effect, anything else a type error. *)
Definition store (v : Value) (st : stateHandlerAction)
  : option error * stateHandlerAction :=
  match v with
  | Null => (None, st)
  | Object ms => fold_left storeMember ms (None, st)
  | _ =>
      (Some ("json: cannot unmarshal " +:+ kindOf v
             +:+ " into Go value of type v3.stateHandlerAction"), st)
  end.

(** [json.Unmarshal] on a plain input; [None] on any other. *)
Definition Unmarshal (data : string) (st : stateHandlerAction)
  : option (option error * stateHandlerAction) :=
  match scan data with
  | Accepted v => Some (store v st)
  | Rejected => Some (Some "json: syntax error", st)
  | Beyond => None
  end.

(** [json.Valid] on a plain input. *)
Definition Valid (data : string) : bool :=
  match scan data with
  | Accepted _ => true
  | _ => false
  end.

(** The decoder as a function of every input: the model on a plain
    input, [other] on the rest. *)
Definition UnmarshalOr
    (other : string -> stateHandlerAction
             -> option error * stateHandlerAction)
    (data : string) (st : stateHandlerAction)
  : option error * stateHandlerAction :=
  match Unmarshal data st with
  | Some res => res
  | None => other data st
  end.

(** The member can be stored: its key names no field, or its value is
    a string or null. *)
Definition fits (m : string * Value) : bool :=
  match fieldOf (fst m), snd m with
  | None, _ => true
  | Some _, Str _ => true
  | Some _, Null => true
  | Some _, _ => false
  end.

(** The member stores a state name that is not empty. *)
Definition setsState (m : string * Value) : bool :=
  match fieldOf (fst m), snd m with
  | Some FState, Str s => negb (String.eqb s "")
  | _, _ => false
  end.

(** A payload without a state: null, or an object whose members can
    all be stored and store no state name but the empty one. *)
Definition stateless (v : Value) : bool :=
  match v with
  | Null => true
  | Object ms =>
      forallb fits ms && forallb (fun m => negb (setsState m)) ms
  | _ => false
  end.

(** A value that is valid JSON and does not fit the struct: not an
    object nor null, or an object with a member that cannot be stored. *)
Definition misfit (v : Value) : bool :=
  match v with
  | Null => false
  | Object ms => negb (forallb fits ms)
  | _ => true
  end.

(** Whether the input is a JSON object with a member under this very key. *)
Definition hasMember (key data : string) : bool :=
  match scan data with
  | Accepted (Object ms) => existsb (fun m => String.eqb (fst m) key) ms
  | _ => false
  end.

End Json.

(** ** Vocabulary of the statements *)

(** The four places of the pipeline, in the order of the spec, each
    filled only when its component is present. *)
Definition middlewareSlots {U TLSConfig : Type}
    (json_Unmarshal :
       string -> stateHandlerAction -> option error * stateHandlerAction)
    (request : VerifyRequest U TLSConfig) : list (option (Middleware U)) :=
  [ (fun hook => BeforeEachMiddleware hook) <$> BeforeEach request;
    (fun hook => AfterEachMiddleware hook) <$> AfterEach request;
    (if decide (StateHandlers request = ∅) then None
     else Some (stateHandlerMiddleware json_Unmarshal (StateHandlers request)));
    RequestFilter request ].

(** No attempt of the list connected. *)
Definition allFailed (l : list Attempt) : Prop :=
  Forall (fun a => connected a = false) l.

(** [sub] occurs in [s]. *)
Definition contains (s sub : string) : Prop :=
  exists before after, s = before +:+ sub +:+ after.

(** The address [waitForPort] dials: [fmt.Sprintf("%s:%d", address,
    port)]. *)
Definition dialTarget (address : string) (port : Z) : string :=
  address +:+ ":" +:+ formatInt port.

(** When the last attempt of [l] came back; [start] when there is none. *)
Definition lastReturn (start : Z) (l : list Attempt) : Z :=
  match last l with
  | Some a => (began a + took a)%Z
  | None => start
  end.

(** The attempt [a] records what [net_Dial] answered when it began. *)
Definition dialed (net_Dial : string -> string -> Z -> option error * N)
    (network target : string) (a : Attempt) : Prop :=
  connected a = match fst (net_Dial network target (began a)) with
                | None => true
                | Some _ => false
                end
  /\ took a = Z.of_N (snd (net_Dial network target (began a))).

(** Whether a subtest failed. *)
Definition subtestFailed (e : TestEvent) : bool :=
  match e with
  | TRun _ [] => false
  | TRun _ (_ :: _) => true
  end.

(** Whether a slot is filled. *)
Definition isPresent {A : Type} (o : option A) : bool :=
  match o with Some _ => true | None => false end.

(** The original request with only its two URLs replaced. *)
Definition replaceURLs {U TLSConfig : Type}
    (request : VerifyRequest U TLSConfig) (base setup : string)
  : VerifyRequest U TLSConfig :=
  {| ProviderBaseURL := base;
     PactURLs := PactURLs request;
     PactFiles := PactFiles request;
     PactDirs := PactDirs request;
     BrokerURL := BrokerURL request;
     Tags := Tags request;
     BrokerUsername := BrokerUsername request;
     BrokerPassword := BrokerPassword request;
     BrokerToken := BrokerToken request;
     PublishVerificationResults := PublishVerificationResults request;
     ProviderVersion := ProviderVersion request;
     Provider := Provider request;
     ProviderStatesSetupURL := setup;
     ProviderTags := ProviderTags request;
     FailIfNoPactsFound := FailIfNoPactsFound request;
     BeforeEach := BeforeEach request;
     AfterEach := AfterEach request;
     StateHandlers := StateHandlers request;
     RequestFilter := RequestFilter request;
     CustomTLSConfig := CustomTLSConfig request |}.

(** Whether a run called the verification engine. *)
Definition isVerify {U TLSConfig : Type} (e : RunEvent U TLSConfig) : bool :=
  match e with EvVerify _ => true | _ => false end.
Definition engineCalls {U TLSConfig : Type}
    (t : list (RunEvent U TLSConfig)) : nat :=
  length (List.filter isVerify t).

(** What a failed hook adds to the trace: one [WriteHeader(500)]. *)
Definition hookFailure (err : option error) : list Event :=
  match err with
  | Some _ => [EvWriteHeader StatusInternalServerError]
  | None => []
  end.

(** The status a state handler's result is answered with. *)
Definition handlerStatus (err : option error) : Z :=
  match err with
  | Some _ => StatusInternalServerError
  | None => StatusOK
  end.

(** A handler that does nothing, and the proxy's final handler, which
    forwards the request to the provider. *)
Definition quiet {U : Type} : Handler U := fun _ => ret tt.
Definition forward {U : Type} : Handler U := fun r => emit (EvForward (Path r)).

(** ** A concrete run, used to exercise the statements

    User state is a counter of the user functions that ran. *)

Module Scenario.

Definition hookOk : Hook nat := fun n => (None, S n).
Definition hookFail : Hook nat := fun n => (Some "hook failed", S n).
Definition handlerOk : StateHandler nat := fun _ n => (None, S n).
Definition handlerFail : StateHandler nat :=
  fun _ n => (Some "state failed", S n).

Definition handlers : gmap string (StateHandler nat) :=
  <["User foo exists" := handlerOk]> (<["Broken" := handlerFail]> ∅).

(** [q s] is [s] between double quotes. *)
Definition dq : string := String (Ascii.ascii_of_nat 34) EmptyString.
Definition q (s : string) : string := dq +:+ s +:+ dq.

Definition payload (state : string) : string :=
  "{" +:+ q "action" +:+ ":" +:+ q "setup" +:+ ","
      +:+ q "state" +:+ ":" +:+ q state +:+ "}".
Definition bodyFoo : string := payload "User foo exists".
Definition bodyBroken : string := payload "Broken".
Definition bodyUnknown : string := payload "No such state".
Definition bodyNoState : string :=
  "{" +:+ q "action" +:+ ":" +:+ q "setup" +:+ "}".
Definition bodyGarbage : string := "not json".

(** What encoding/json answers on the five bodies above (a field the
    payload does not name keeps its value); no other body is used. *)
Definition decode (data : string) (state : stateHandlerAction)
  : option error * stateHandlerAction :=
  if String.eqb data bodyFoo
  then (None, {| Action := "setup"; State := "User foo exists" |})
  else if String.eqb data bodyBroken
  then (None, {| Action := "setup"; State := "Broken" |})
  else if String.eqb data bodyUnknown
  then (None, {| Action := "setup"; State := "No such state" |})
  else if String.eqb data bodyNoState
  then (None, {| Action := "setup"; State := State state |})
  else (Some "invalid character 'o' in literal null (expecting 'u')", state).

Definition setupRequest (body : string) : Request :=
  {| Path := providerStatesSetupPath; Body := body |}.
Definition usersRequest : Request := {| Path := "/users/1"; Body := "" |}.

(** The verification request of the run: hooks and state handlers, no
    legacy setup URL. *)
Definition requestFor (base setup : string) : VerifyRequest nat unit :=
  {| ProviderBaseURL := base;
     PactURLs := []; PactFiles := ["pacts/consumer-provider.json"];
     PactDirs := []; BrokerURL := ""; Tags := ["prod"];
     BrokerUsername := ""; BrokerPassword := ""; BrokerToken := "";
     PublishVerificationResults := false;
     ProviderVersion := "1.0.0"; Provider := "provider";
     ProviderStatesSetupURL := setup;
     ProviderTags := []; FailIfNoPactsFound := true;
     BeforeEach := Some hookOk; AfterEach := Some hookOk;
     StateHandlers := handlers;
     RequestFilter := None; CustomTLSConfig := None |}.

Definition request : VerifyRequest nat unit :=
  requestFor "http://localhost:8080" "".

(** A base URL net/url rejects (missing protocol scheme). *)
Definition badRequest : VerifyRequest nat unit := requestFor ":8080" "".

(** net/url on the two base URLs above. *)
Definition parse (rawURL : string) : option URL * option error :=
  if String.eqb rawURL "http://localhost:8080"
  then (Some {| Scheme := "http"; Host := "localhost:8080"; URLPath := "" |},
        None)
  else (None, Some ("parse " +:+ rawURL +:+ ": missing protocol scheme")).
Definition hostname (u : URL) : string := "localhost".
Definition portOf (u : URL) : string := "8080".

(** A proxy that binds port 54321, and one that cannot bind. *)
Definition proxyUp (opts : Options nat unit) : Z * option error :=
  (54321%Z, None).
Definition proxyDown (opts : Options nat unit) : Z * option error :=
  (0%Z, Some "listen tcp :0: bind: no free port").

(** A network where localhost:54321 accepts connections from time
    [live] on and nothing else ever does; connecting takes no time. *)
Definition dialFrom (live : Z) (network address : string) (t : Z)
  : option error * N :=
  if String.eqb address "localhost:54321" && Z.leb live t
  then (None, 0%N)
  else (Some "dial tcp: connect: connection refused", 0%N).
Definition dialNever (network address : string) (t : Z) : option error * N :=
  (Some "dial tcp: connect: connection refused", 0%N).

Definition timeoutFirst (t : Z) : bool := true.

(** [Duration.String()] on whole seconds and, below one second, on
    whole milliseconds; no other duration is used. *)
Definition durationString (d : Z) : string :=
  if Z.eqb (d mod Second) 0
  then formatInt (d / Second) +:+ "s"
  else formatInt (d / Millisecond) +:+ "ms".

(** The engine passes. *)
Definition engine (vr : VerifyRequest nat unit) (w : unit) : option error :=
  None.

Definition verifier : HTTPVerifier := {| ClientTimeout := 0 |}.

(** The orchestrator in this world, for a proxy and a network. *)
Definition runWith (proxy : Options nat unit -> Z * option error)
    (dial : string -> string -> Z -> option error * N)
    (req : VerifyRequest nat unit) : Outcome * list (RunEvent nat unit) :=
  verifyProviderRaw decode parse hostname portOf proxy
    (waitForPortErr dial timeoutFirst durationString) engine
    verifier req tt.

(** encoding/json as modelled on plain input; no other input is used. *)
Definition decodeJSON : string -> stateHandlerAction
                        -> option error * stateHandlerAction :=
  Json.UnmarshalOr (fun _ st => (Some "json: input outside the model", st)).

(** Valid JSON without a member named state: an array, an object whose
    action is a number, and an object whose key is STATE. *)
Definition bodyArray : string := "[]".
Definition bodyActionNumber : string := "{" +:+ q "action" +:+ ":5}".
Definition bodyUpperState : string :=
  "{" +:+ q "STATE" +:+ ":" +:+ q "User foo exists" +:+ "}".
Definition bodyEmptyState : string :=
  "{" +:+ q "state" +:+ ":" +:+ q "" +:+ "}".

(** A request filter that counts the request, around the next handler. *)
Definition countingFilter : Middleware nat := fun next r u => next r (S u).

(** A second decoder: as [decode], with another action name. *)
Definition decodeTeardown (data : string) (state : stateHandlerAction)
  : option error * stateHandlerAction :=
  let '(err, st) := decode data state in
  (err, {| Action := "teardown"; State := State st |}).

(** An inner handler that answers 404. *)
Definition notFound : Handler nat := fun _ => emit (EvWriteHeader 404).

(** A verifier in a hurry: 20ms. *)
Definition hastyVerifier : HTTPVerifier :=
  {| ClientTimeout := 20 * Millisecond |}.

(** A network that differs from [dialFrom live] on every address but
    localhost:54321. *)
Definition dialAlso (live : Z) (network address : string) (t : Z)
  : option error * N :=
  if String.eqb address "localhost:54321"
  then dialFrom live network address t
  else (None, 7%N).

End Scenario.

(** * Properties *)

Section HandlerFacts.

Context {U : Type}.
Variable json_Unmarshal :
  string -> stateHandlerAction -> option error * stateHandlerAction.

Implicit Types (h : Hook U) (next : Handler U) (r : Request) (u : U).
Implicit Types (sh : gmap string (StateHandler U)).

Ltac run_handler :=
  unfold BeforeEachMiddleware, AfterEachMiddleware, stateHandlerMiddleware,
    bind, ret, callHook, callStateHandler, WriteHeader, emit,
    traceOf, userOf, resultOf.

Lemma setup_path_eqb r :
  Path r = providerStatesSetupPath ->
  String.eqb (Path r) providerStatesSetupPath = true.
Proof. intros ->. apply String.eqb_refl. Qed.

Lemma other_path_eqb r :
  Path r <> providerStatesSetupPath ->
  String.eqb (Path r) providerStatesSetupPath = false.
Proof. intros H. now apply String.eqb_neq. Qed.

(** Off the setup path the before middleware is the next handler. *)
Lemma BeforeEach_other h next r u :
  Path r <> providerStatesSetupPath ->
  BeforeEachMiddleware h next r u = next r u.
Proof.
  intros H. run_handler. rewrite (other_path_eqb r H).
  destruct (next r u) as [[[] u'] t]. reflexivity.
Qed.

(** On the setup path it calls the hook once, then the next handler. *)
Lemma BeforeEach_setup h next r u :
  Path r = providerStatesSetupPath ->
  BeforeEachMiddleware h next r u =
    (tt, userOf (next r (snd (h u))),
     EvBeforeEach :: hookFailure (fst (h u))
       ++ traceOf (next r (snd (h u)))).
Proof.
  intros H. run_handler. rewrite (setup_path_eqb r H).
  destruct (h u) as [[e|] u1]; simpl;
    destruct (next r u1) as [[[] u2] t]; reflexivity.
Qed.

(** Off the setup path the after middleware runs the next handler,
    then calls the hook once. *)
Lemma AfterEach_other h next r u :
  Path r <> providerStatesSetupPath ->
  AfterEachMiddleware h next r u =
    (tt, snd (h (userOf (next r u))),
     traceOf (next r u)
       ++ EvAfterEach :: hookFailure (fst (h (userOf (next r u))))).
Proof.
  intros H. run_handler. rewrite (other_path_eqb r H). simpl.
  destruct (next r u) as [[[] u1] t]; simpl.
  destruct (h u1) as [[e|] u2]; reflexivity.
Qed.

(** On the setup path it is the next handler. *)
Lemma AfterEach_setup h next r u :
  Path r = providerStatesSetupPath ->
  AfterEachMiddleware h next r u = next r u.
Proof.
  intros H. run_handler. rewrite (setup_path_eqb r H). simpl.
  destruct (next r u) as [[[] u1] t]. now rewrite app_nil_r.
Qed.

(** The state-handler middleware on the setup path, branch by branch. *)
Lemma stateHandler_setup sh next r u :
  Path r = providerStatesSetupPath ->
  stateHandlerMiddleware json_Unmarshal sh next r u =
    match json_Unmarshal (Body r) zeroAction with
    | (Some _, _) => (tt, u, [EvWriteHeader StatusInternalServerError])
    | (None, state) =>
        match lookup (A:=StateHandler U) (State state) sh with
        | None => (tt, u, [EvWriteHeader StatusOK])
        | Some sf =>
            let arg := {| Name := State state |} in
            (tt, snd (sf arg u),
             [EvStateHandler arg; EvWriteHeader (handlerStatus (fst (sf arg u)))])
        end
    end.
Proof.
  intros H. run_handler. rewrite (setup_path_eqb r H).
  destruct (json_Unmarshal (Body r) zeroAction) as [[e|] state]; [reflexivity|].
  destruct (sh !! State state) as [sf|]; [|reflexivity].
  destruct (sf _ u) as [[e|] u1]; reflexivity.
Qed.

Lemma stateHandler_other sh next r u :
  Path r <> providerStatesSetupPath ->
  stateHandlerMiddleware json_Unmarshal sh next r u = next r u.
Proof. intros H. run_handler. now rewrite (other_path_eqb r H). Qed.

Lemma count_app p (a b : list Event) : count p (a ++ b) = count p a + count p b.
Proof. unfold count. now rewrite List.filter_app, length_app. Qed.

Lemma count_hookFailure_hooks err :
  count isBeforeEach (hookFailure err) = 0
  /\ count isAfterEach (hookFailure err) = 0
  /\ count isStateHandler (hookFailure err) = 0.
Proof. destruct err; repeat split; reflexivity. Qed.

(** On the setup path the state-handler middleware calls no hook and
    forwards nothing, and calls at most one state handler. *)
Lemma stateHandler_setup_counts sh next r u :
  Path r = providerStatesSetupPath ->
  let t := traceOf (stateHandlerMiddleware json_Unmarshal sh next r u) in
  count isBeforeEach t = 0 /\ count isAfterEach t = 0
  /\ count isForward t = 0 /\ count isStateHandler t <= 1.
Proof.
  intros H. rewrite (stateHandler_setup sh next r u H).
  destruct (json_Unmarshal (Body r) zeroAction) as [[e|] state];
    [cbn; lia|].
  destruct (sh !! State state) as [sf|]; cbn; lia.
Qed.

(** C3: on the reserved setup path the state-handler middleware answers
    500 and runs no handler when the body does not decode; answers 200
    and runs no handler when the decoded state has no entry; otherwise
    runs the matched handler exactly once, on a ProviderState named
    after the requested state, and answers 200 if it succeeds and 500
    if it fails. *)
Theorem stateHandlerMiddleware_setup_responses sh next r u :
  Path r = providerStatesSetupPath ->
  let run := stateHandlerMiddleware json_Unmarshal sh next r u in
  (forall e st,
      json_Unmarshal (Body r) zeroAction = (Some e, st) ->
      traceOf run = [EvWriteHeader 500]
      /\ responseStatus (traceOf run) = Some 500%Z
      /\ count isStateHandler (traceOf run) = 0
      /\ userOf run = u)
  /\ (forall st,
      json_Unmarshal (Body r) zeroAction = (None, st) ->
      sh !! State st = None ->
      traceOf run = [EvWriteHeader 200]
      /\ responseStatus (traceOf run) = Some 200%Z
      /\ count isStateHandler (traceOf run) = 0
      /\ userOf run = u)
  /\ (forall st (sf : StateHandler U),
      json_Unmarshal (Body r) zeroAction = (None, st) ->
      sh !! State st = Some sf ->
      let arg := {| Name := State st |} in
      count isStateHandler (traceOf run) = 1
      /\ In (EvStateHandler arg) (traceOf run)
      /\ userOf run = snd (sf arg u)
      /\ (fst (sf arg u) = None ->
          traceOf run = [EvStateHandler arg; EvWriteHeader 200]
          /\ responseStatus (traceOf run) = Some 200%Z)
      /\ (fst (sf arg u) <> None ->
          traceOf run = [EvStateHandler arg; EvWriteHeader 500]
          /\ responseStatus (traceOf run) = Some 500%Z)).
Proof.
  intros H run. subst run. rewrite (stateHandler_setup sh next r u H).
  split; [|split].
  - intros e st ->. cbn. auto.
  - intros st Hd Hl. rewrite Hd. cbv beta iota. rewrite Hl. cbn. auto.
  - intros st sf Hd Hl arg. subst arg.
    rewrite Hd. cbv beta iota. rewrite Hl. cbv zeta.
    destruct (sf {| Name := State st |} u) as [[e|] u1]; cbn;
      repeat split; auto; intros; congruence.
Qed.

(** What both hook middlewares do on the setup path. *)
Lemma hooks_setup_aux (hb ha : Hook U) next r u :
  Path r = providerStatesSetupPath ->
  traceOf (BeforeEachMiddleware hb next r u)
  = EvBeforeEach :: hookFailure (fst (hb u))
      ++ traceOf (next r (snd (hb u)))
  /\ count isBeforeEach (traceOf (BeforeEachMiddleware hb next r u))
     = 1 + count isBeforeEach (traceOf (next r (snd (hb u))))
  /\ AfterEachMiddleware ha next r u = next r u.
Proof.
  intros H. rewrite (AfterEach_setup ha next r u H).
  rewrite (BeforeEach_setup hb next r u H).
  repeat split.
  unfold traceOf at 1. cbn [snd].
  change (EvBeforeEach :: ?l) with ([EvBeforeEach] ++ l).
  rewrite !count_app.
  destruct (count_hookFailure_hooks (fst (hb u))) as (-> & _ & _).
  reflexivity.
Qed.



(** C6: on the reserved setup path the state-handler middleware never
    calls the next handler, whatever the branch: its run is the same
    for every next handler, and nothing is forwarded to the provider. *)
Theorem stateHandlerMiddleware_ends_chain sh r u :
  Path r = providerStatesSetupPath ->
  (forall next next',
      stateHandlerMiddleware json_Unmarshal sh next r u
      = stateHandlerMiddleware json_Unmarshal sh next' r u)
  /\ (forall next,
      count isForward
        (traceOf (stateHandlerMiddleware json_Unmarshal sh next r u)) = 0).
Proof.
  intros H. split.
  - intros next next'. now rewrite !stateHandler_setup by exact H.
  - intros next. now destruct (stateHandler_setup_counts sh next r u H)
      as (_ & _ & ? & _).
Qed.

End HandlerFacts.

(** ** The state-setup payload through encoding/json *)

Section PayloadFacts.

(** One member: no error after it exactly when none was saved before
    and the member can be stored. *)
Lemma store_member_error m saved st :
  fst (Json.storeMember (saved, st) m) = None
  <-> saved = None /\ Json.fits m = true.
Proof.
  unfold Json.storeMember, Json.fits.
  destruct (Json.fieldOf (fst m)) as [f|]; [|cbn; tauto].
  destruct (snd m); destruct saved; cbn; intuition congruence.
Qed.

(** Storing members returns no error exactly when none was saved
    before and every member can be stored. *)
Lemma store_members_error ms saved st :
  fst (fold_left Json.storeMember ms (saved, st)) = None
  <-> saved = None /\ forallb Json.fits ms = true.
Proof.
  revert saved st. induction ms as [|m ms IH]; intros saved st.
  - cbn. tauto.
  - cbn [fold_left forallb].
    destruct (Json.storeMember (saved, st) m) as [saved' st'] eqn:E.
    rewrite IH, andb_true_iff.
    pose proof (store_member_error m saved st) as Hm. rewrite E in Hm.
    cbn [fst] in Hm. tauto.
Qed.

(** One member that sets no state name but the empty one leaves an
    empty state name empty. *)
Lemma store_member_state m saved st :
  Json.setsState m = false ->
  State st = "" ->
  State (snd (Json.storeMember (saved, st) m)) = "".
Proof.
  unfold Json.storeMember, Json.setsState. intros Hm Hst.
  destruct (Json.fieldOf (fst m)) as [f|]; [|exact Hst].
  destruct (snd m) as [| | |s| |]; try exact Hst.
  destruct f; cbn; [exact Hst|].
  apply negb_false_iff in Hm. now apply String.eqb_eq.
Qed.

(** Members that set no state name but the empty one leave an empty
    state name empty. *)
Lemma store_members_state ms saved st :
  forallb (fun m => negb (Json.setsState m)) ms = true ->
  State st = "" ->
  State (snd (fold_left Json.storeMember ms (saved, st))) = "".
Proof.
  revert saved st. induction ms as [|m ms IH]; intros saved st Hms Hst;
    [exact Hst|].
  cbn in Hms. apply andb_true_iff in Hms. destruct Hms as [Hm Hms].
  apply negb_true_iff in Hm. cbn [fold_left].
  pose proof (store_member_state m saved st Hm Hst) as Hstep.
  destruct (Json.storeMember (saved, st) m) as [saved' st'].
  now apply IH.
Qed.

Context {U : Type}.
Variable other :
  string -> stateHandlerAction -> option error * stateHandlerAction.

Implicit Types (next : Handler U) (r : Request) (u : U).
Implicit Types (sh : gmap string (StateHandler U)).

(** What the decoder answers on a payload without a state, and on
    valid JSON that does not fit the struct. *)
Lemma decode_stateless data v :
  Json.scan data = Json.Accepted v ->
  Json.stateless v = true ->
  exists st, Json.UnmarshalOr other data zeroAction = (None, st)
             /\ State st = "".
Proof.
  intros Hscan Hv. unfold Json.UnmarshalOr, Json.Unmarshal. rewrite Hscan.
  destruct v as [| | | | |ms]; try discriminate Hv.
  - exists zeroAction. split; reflexivity.
  - cbn in Hv. apply andb_true_iff in Hv. destruct Hv as [Hfit Hstate].
    cbn [Json.store].
    destruct (fold_left Json.storeMember ms (None, zeroAction))
      as [err st] eqn:E.
    exists st. split.
    + f_equal. change err with (fst (err, st)). rewrite <- E.
      apply store_members_error. now split.
    + change st with (snd (err, st)). rewrite <- E.
      now apply store_members_state.
Qed.

Lemma decode_misfit data v :
  Json.scan data = Json.Accepted v ->
  Json.misfit v = true ->
  exists e st, Json.UnmarshalOr other data zeroAction = (Some e, st).
Proof.
  intros Hscan Hv. unfold Json.UnmarshalOr, Json.Unmarshal. rewrite Hscan.
  destruct v as [| | | | |ms]; try discriminate Hv;
    try (cbn; eexists _, _; reflexivity).
  cbn in Hv. apply negb_true_iff in Hv. cbn [Json.store].
  destruct (fold_left Json.storeMember ms (None, zeroAction))
    as [[e|] st] eqn:E; [eexists _, _; reflexivity|].
  exfalso.
  assert (Hn : fst (fold_left Json.storeMember ms (None, zeroAction)) = None)
    by now rewrite E.
  apply store_members_error in Hn. destruct Hn as [_ Hn]. congruence.
Qed.


End PayloadFacts.

Section OrchestratorFacts.

Context {U TLSConfig outputWriter : Type}.
Variable json_Unmarshal :
  string -> stateHandlerAction -> option error * stateHandlerAction.
Variable url_Parse : string -> option URL * option error.
Variables Hostname Port : URL -> string.
Variable HTTPReverseProxy : Options U TLSConfig -> Z * option error.
Variable waitForPortVar : Z -> string -> string -> Z -> string -> option error.
Variable verify : VerifyRequest U TLSConfig -> outputWriter -> option error.

Implicit Types (v : HTTPVerifier) (request vr : VerifyRequest U TLSConfig).
Implicit Types (writer : outputWriter).

Abbreviation run := (verifyProviderRaw json_Unmarshal url_Parse Hostname Port
                   HTTPReverseProxy waitForPortVar verify).

Lemma validateConfig_nil v : fst (validateConfig v) = None.
Proof. unfold validateConfig. now destruct (Z.eqb _ _). Qed.

(** [len(m) > 0] for a Go map. *)
Lemma nonempty_ltb (m : gmap string (StateHandler U)) :
  Nat.ltb 0 (size m) = true <-> m <> ∅.
Proof.
  rewrite Nat.ltb_lt. split.
  - intros Hs ->. rewrite map_size_empty in Hs. lia.
  - intros Hne. destruct (size m) eqn:E; [|lia].
    now apply map_size_empty_iff in E.
Qed.

(** A nil URL ends the run in a panic before anything is started. *)
Lemma parse_nil_panics v request writer perr :
  url_Parse (ProviderBaseURL request) = (None, perr) ->
  run v request writer = (Panicked, []).
Proof.
  intros Hp. unfold verifyProviderRaw.
  destruct (validateConfig v) as [e v'] eqn:Ev.
  pose proof (validateConfig_nil v) as Hn. rewrite Ev in Hn. cbn in Hn.
  subst e. now rewrite Hp.
Qed.

(** A failed wait ends the process; the engine is not called and
    nothing is returned. *)
Lemma wait_error_exits v request writer :
  (exists port message e,
      In (EvWaitForPort port (ClientTimeout (snd (validateConfig v)))
            message (Some e)) (snd (run v request writer))) ->
  fst (run v request writer) = Exited 1
  /\ engineCalls (snd (run v request writer)) = 0.
Proof.
  unfold verifyProviderRaw.
  destruct (validateConfig v) as [e v'] eqn:Ev.
  pose proof (validateConfig_nil v) as Hn. rewrite Ev in Hn. cbn in Hn.
  subst e. cbn [snd].
  destruct (url_Parse _) as [[u|] perr]; cbn;
    [|intros (? & ? & ? & [])].
  destruct (HTTPReverseProxy _) as [port err].
  destruct (waitForPortVar _ _ _ _ _) as [e|] eqn:Ew; cbn.
  - auto.
  - intros (p' & m' & e' & [H|[H|[H|[]]]]); discriminate H.
Qed.

(** The engine is called only after a parse that gave a URL and a wait
    that returned nil, with the request built for the proxy's port;
    the error of the proxy plays no part. *)
Lemma engine_called_inv v request writer vr :
  In (EvVerify vr) (snd (run v request writer)) ->
  exists u perr opts port err,
    url_Parse (ProviderBaseURL request) = (Some u, perr)
    /\ HTTPReverseProxy opts = (port, err)
    /\ In (EvProxyStart opts port err) (snd (run v request writer))
    /\ vr = verificationRequest request port
    /\ fst (run v request writer) = Returned (verify vr writer).
Proof.
  unfold verifyProviderRaw.
  destruct (validateConfig v) as [e v'] eqn:Ev.
  pose proof (validateConfig_nil v) as Hn. rewrite Ev in Hn. cbn in Hn.
  subst e.
  destruct (url_Parse _) as [[u|] perr]; cbn; [|intros []].
  destruct (HTTPReverseProxy _) as [port err] eqn:Ep.
  destruct (waitForPortVar _ _ _ _ _) as [e|] eqn:Ew; cbn.
  - intros [H|[H|[H|[]]]]; discriminate H.
  - intros [H|[H|[H|[]]]]; try discriminate H.
    injection H as <-.
    eexists u, perr, _, port, err. repeat split; eauto.
Qed.

(** An error of the proxy does not stop the run: with a URL and a wait
    that returns nil, the engine is called all the same. *)
Lemma proxy_error_ignored v request writer u perr opts e :
  url_Parse (ProviderBaseURL request) = (Some u, perr) ->
  opts = {| TargetAddress := Hostname u +:+ ":" +:+ Port u;
            TargetScheme := Scheme u;
            TargetPath := URLPath u;
            Middleware_ := buildMiddleware json_Unmarshal request;
            InternalRequestPathPrefix := providerStatesSetupPath;
            OptCustomTLSConfig := CustomTLSConfig request |} ->
  snd (HTTPReverseProxy opts) = Some e ->
  waitForPortVar (fst (HTTPReverseProxy opts)) "tcp" "localhost"
    (ClientTimeout (snd (validateConfig v)))
    (proxyTimeoutMessage (fst (HTTPReverseProxy opts))) = None ->
  engineCalls (snd (run v request writer)) = 1.
Proof.
  intros Hp -> He Hw. unfold verifyProviderRaw.
  destruct (validateConfig v) as [e0 v'] eqn:Ev.
  pose proof (validateConfig_nil v) as Hn. rewrite Ev in Hn. cbn in Hn.
  subst e0. cbn [snd] in Hw. rewrite Hp.
  destruct (HTTPReverseProxy _) as [port err]. cbn [fst] in Hw.
  now rewrite Hw.
Qed.

(** C2: the state-setup URL the engine receives is the request's own
    ProviderStatesSetupURL, except when that is empty and there are
    state handlers: then it is http://localhost:{port}/__setup/ for the
    port the proxy bound. *)
Theorem engine_setup_url v request writer vr :
  In (EvVerify vr) (snd (run v request writer)) ->
  exists opts port err,
    In (EvProxyStart opts port err) (snd (run v request writer))
    /\ (ProviderStatesSetupURL request = ""
        /\ StateHandlers request <> ∅ ->
        ProviderStatesSetupURL vr
        = "http://localhost:" +:+ formatInt port +:+ "/__setup/")
    /\ (~ (ProviderStatesSetupURL request = ""
           /\ StateHandlers request <> ∅) ->
        ProviderStatesSetupURL vr = ProviderStatesSetupURL request).
Proof.
  intros Hin.
  destruct (engine_called_inv _ _ _ _ Hin)
    as (u & perr & opts & port & err & _ & _ & Hstart & -> & _).
  exists opts, port, err. split; [exact Hstart|].
  cbn [verificationRequest ProviderStatesSetupURL]. unfold setupURL.
  split.
  - intros [-> Hne]. apply nonempty_ltb in Hne. now rewrite Hne.
  - intros Hnot.
    destruct (String.eqb (ProviderStatesSetupURL request) "") eqn:Eq;
      [|reflexivity].
    destruct (Nat.ltb 0 (size (StateHandlers request))) eqn:El;
      [|reflexivity].
    exfalso. apply Hnot. split.
    + now apply String.eqb_eq.
    + now apply nonempty_ltb.
Qed.

(** C7: the middleware list is the before-hook, after-hook,
    state-handler and request-filter middlewares, in this order, with
    exactly the present ones kept: nothing stands in for an absent one,
    and the assembly is a total function of the request. *)
Theorem buildMiddleware_is_present_slots request :
  buildMiddleware json_Unmarshal request
  = omap id (middlewareSlots json_Unmarshal request)
  /\ length (buildMiddleware json_Unmarshal request)
     = length (List.filter isPresent
                 (middlewareSlots json_Unmarshal request)).
Proof.
  unfold buildMiddleware, middlewareSlots.
  destruct (Nat.ltb 0 (size (StateHandlers request))) eqn:El.
  - apply nonempty_ltb in El.
    destruct (decide (StateHandlers request = ∅)) as [E|_];
      [contradiction|].
    destruct (BeforeEach request), (AfterEach request),
      (RequestFilter request); split; reflexivity.
  - destruct (decide (StateHandlers request = ∅)) as [_|Hne].
    + destruct (BeforeEach request), (AfterEach request),
        (RequestFilter request); split; reflexivity.
    + apply nonempty_ltb in Hne. congruence.
Qed.

(** C8, as amended: the request the engine receives has
    ProviderBaseURL http://localhost:{port} and the computed state-setup
    URL, carries the thirteen pact-source, broker, publishing, tag and
    filtering fields of the original unchanged, and leaves every other
    field (the hooks, the state handlers, the request filter, the TLS
    configuration) at its zero value. *)
Theorem engine_request_fields v request writer vr :
  In (EvVerify vr) (snd (run v request writer)) ->
  exists opts port err,
    In (EvProxyStart opts port err) (snd (run v request writer))
    /\ ProviderBaseURL vr = "http://localhost:" +:+ formatInt port
    /\ ProviderStatesSetupURL vr = setupURL request port
    /\ PactURLs vr = PactURLs request
    /\ PactFiles vr = PactFiles request
    /\ PactDirs vr = PactDirs request
    /\ BrokerURL vr = BrokerURL request
    /\ Tags vr = Tags request
    /\ BrokerUsername vr = BrokerUsername request
    /\ BrokerPassword vr = BrokerPassword request
    /\ BrokerToken vr = BrokerToken request
    /\ PublishVerificationResults vr = PublishVerificationResults request
    /\ ProviderVersion vr = ProviderVersion request
    /\ Provider vr = Provider request
    /\ ProviderTags vr = ProviderTags request
    /\ FailIfNoPactsFound vr = FailIfNoPactsFound request
    /\ BeforeEach vr = None
    /\ AfterEach vr = None
    /\ StateHandlers vr = ∅
    /\ RequestFilter vr = None
    /\ CustomTLSConfig vr = None.
Proof.
  intros Hin.
  destruct (engine_called_inv _ _ _ _ Hin)
    as (u & perr & opts & port & err & _ & _ & Hstart & -> & _).
  exists opts, port, err. split; [exact Hstart|].
  repeat split; reflexivity.
Qed.

End OrchestratorFacts.

Section WaiterFacts.

Variable net_Dial : string -> string -> Z -> option error * N.
Variable selectTimeoutFirst : Z -> bool.
Variable Duration_String : Z -> string.

Abbreviation loop := (waitLoop net_Dial selectTimeoutFirst Duration_String).

Lemma append_assoc (a b c : string) : (a +:+ b) +:+ c = a +:+ b +:+ c.
Proof.
  induction a as [|x a IH]; [reflexivity|].
  change (String x ((a +:+ b) +:+ c) = String x (a +:+ b +:+ c)).
  now rewrite IH.
Qed.

Lemma append_empty_r (a : string) : a +:+ "" = a.
Proof.
  induction a as [|x a IH]; [reflexivity|].
  change (String x (a +:+ "") = String x a). now rewrite IH.
Qed.

Lemma timeoutError_contains d message :
  contains (timeoutError Duration_String d message) message.
Proof.
  exists ("Expected server to start < " +:+ Duration_String d +:+ ". "), "".
  unfold timeoutError. now rewrite append_empty_r, !append_assoc.
Qed.

(** Attempts paced from a time that is not negative all begin later
    than that time by at least one interval. *)
Lemma paced_began start l :
  (0 <= start)%Z -> paced start l ->
  Forall (fun a => (start + pollInterval <= began a)%Z) l.
Proof.
  revert start. induction l as [|a l IH]; intros start Hs Hp; [constructor|].
  destruct Hp as (Hb & Ht & Hp). constructor; [lia|].
  assert (Hi : (0 < pollInterval)%Z) by reflexivity.
  eapply List.Forall_impl; [|apply (IH (began a + took a)%Z); [lia|exact Hp]].
  cbn. intros b Hb'. lia.
Qed.

(** The loop returns whenever its fuel covers the turns left before
    the timeout, and what it returns is one of two things. *)
Lemma waitLoop_returns fuel port network address d message now log :
  (Z.max 0 (d - now) < Z.of_nat fuel * pollInterval)%Z ->
  exists res new,
    loop fuel port network address d message now log = Some res
    /\ attempts res = log ++ new
    /\ paced now new
    /\ Forall (fun a => (began a <= d)%Z) new
    /\ ((waitErr res = None
         /\ exists pre a,
             new = pre ++ [a] /\ allFailed pre /\ connected a = true
             /\ returnedAt res = (began a + took a)%Z)
        \/ (waitErr res = Some (timeoutError Duration_String d message)
            /\ allFailed new
            /\ (d <= returnedAt res)%Z /\ (now <= returnedAt res)%Z)).
Proof.
  assert (Hi : pollInterval = 50000000%Z) by reflexivity.
  revert now log. induction fuel as [|fuel IH]; intros now log Hfuel.
  { cbn in Hfuel. lia. }
  cbn [waitLoop].
  destruct (Z.ltb d (now + pollInterval)
            || (Z.eqb d (now + pollInterval)
                && selectTimeoutFirst (now + pollInterval))) eqn:Esel.
  - eexists _, []. split; [reflexivity|]. cbn [attempts waitErr returnedAt].
    rewrite app_nil_r. split; [reflexivity|]. split; [exact I|].
    split; [constructor|].
    right. split; [reflexivity|]. split; [constructor|]. lia.
  - apply orb_false_iff in Esel. destruct Esel as [Hlt _].
    apply Z.ltb_ge in Hlt.
    destruct (net_Dial network (address +:+ ":" +:+ formatInt port)
                (now + pollInterval)) as [[e|] dur].
    + destruct (IH (now + pollInterval + Z.of_N dur)%Z
                  (log ++ [mkAttempt (now + pollInterval) (Z.of_N dur) false]))
        as (res & new & Hres & Hatt & Hpaced & Hle & Hcases).
      { rewrite Nat2Z.inj_succ in Hfuel. lia. }
      exists res, (mkAttempt (now + pollInterval) (Z.of_N dur) false :: new).
      split; [exact Hres|]. split; [now rewrite Hatt, <- app_assoc|].
      split; [cbn; repeat split; [lia | exact Hpaced]|].
      split; [constructor; [cbn; lia | exact Hle]|].
      destruct Hcases as [(Hnil & pre & a & -> & Hpre & Hok & Hret)
                         |(Herr & Hall & Hd & Hnow)].
      * left. split; [exact Hnil|].
        exists (mkAttempt (now + pollInterval) (Z.of_N dur) false :: pre), a.
        repeat split; try assumption. now constructor.
      * right. repeat split; try assumption; [now constructor | lia].
    + eexists _, [mkAttempt (now + pollInterval) (Z.of_N dur) true].
      split; [reflexivity|]. cbn [attempts waitErr returnedAt].
      split; [reflexivity|].
      split; [cbn; repeat split; lia|].
      split; [constructor; [cbn; lia | constructor]|].
      left. split; [reflexivity|].
      exists [], (mkAttempt (now + pollInterval) (Z.of_N dur) true).
      repeat split. constructor.
Qed.

Lemma waitFuel_enough d :
  (Z.max 0 (d - 0) < Z.of_nat (waitFuel d) * pollInterval)%Z.
Proof.
  assert (Hi : pollInterval = 50000000%Z) by reflexivity.
  unfold waitFuel. rewrite Nat2Z.inj_succ, Hi.
  destruct (Z.le_gt_cases 0 d) as [Hd|Hd].
  - rewrite Z2Nat.id by (apply Z.div_pos; lia).
    pose proof (Z.mod_pos_bound d 50000000 ltac:(lia)).
    pose proof (Z.div_mod d 50000000 ltac:(lia)). lia.
  - rewrite Z2Nat.nonpos; [lia|].
    apply Z.lt_le_incl, Z.div_lt_upper_bound; lia.
Qed.

Lemma lastReturn_cons start a l :
  lastReturn start (a :: l) = lastReturn (began a + took a) l.
Proof.
  unfold lastReturn. destruct l as [|b l]; [reflexivity|].
  change (last (a :: b :: l)) with (last (b :: l)).
  destruct (last (b :: l)) eqn:E; [reflexivity|].
  now apply last_None in E.
Qed.

(** What the loop returns is what the network answered: every attempt
    it adds is a call of [net_Dial] on the target, and it gives up only
    when the timeout channel is ready before the next 50ms channel (or
    with it, and [select] takes the timeout case). *)
Lemma waitLoop_faithful fuel port network address d message now log res :
  loop fuel port network address d message now log = Some res ->
  exists new,
    attempts res = log ++ new
    /\ Forall (dialed net_Dial network (dialTarget address port)) new
    /\ (waitErr res <> None ->
        waitErr res = Some (timeoutError Duration_String d message)
        /\ returnedAt res = Z.max (lastReturn now new) d
        /\ ((d < lastReturn now new + pollInterval)%Z
            \/ (d = lastReturn now new + pollInterval)%Z
               /\ selectTimeoutFirst d = true)).
Proof.
  revert now log. induction fuel as [|fuel IH]; intros now log; [discriminate|].
  cbn [waitLoop]. fold (dialTarget address port).
  destruct (Z.ltb d (now + pollInterval)
            || (Z.eqb d (now + pollInterval)
                && selectTimeoutFirst (now + pollInterval))) eqn:Esel.
  { intros [= <-]. exists []. cbn [attempts waitErr returnedAt].
    split; [now rewrite app_nil_r|]. split; [constructor|].
    intros _. split; [reflexivity|]. split; [reflexivity|].
    unfold lastReturn. cbn [last].
    apply orb_true_iff in Esel. destruct Esel as [Hlt | Htie].
    - left. now apply Z.ltb_lt.
    - right. apply andb_true_iff in Htie. destruct Htie as [Heq Hsel].
      apply Z.eqb_eq in Heq. split; [exact Heq | now rewrite Heq]. }
  destruct (net_Dial network (dialTarget address port) (now + pollInterval))
    as [err dur] eqn:Ed.
  assert (Hdialed : forall ok,
            ok = match err with None => true | Some _ => false end ->
            dialed net_Dial network (dialTarget address port)
              (mkAttempt (now + pollInterval) (Z.of_N dur) ok)).
  { intros ok ->. unfold dialed. cbn [began connected took].
    rewrite Ed. split; reflexivity. }
  destruct err as [e|].
  - intros Hres. destruct (IH _ _ Hres) as (new & Hatt & Hd & Herr).
    exists (mkAttempt (now + pollInterval) (Z.of_N dur) false :: new).
    split; [now rewrite Hatt, <- app_assoc|].
    split; [constructor; [now apply Hdialed | exact Hd]|].
    rewrite lastReturn_cons. exact Herr.
  - intros [= <-].
    exists [mkAttempt (now + pollInterval) (Z.of_N dur) true].
    cbn [attempts waitErr]. split; [reflexivity|].
    split; [constructor; [now apply Hdialed | constructor]|].
    intros H. now destruct H.
Qed.

(** C9: waitForPort tries to connect every 50ms, the first time 50ms
    after it is entered and never at time zero, each try being one
    net.Dial on the network and on address:port; it returns nil right
    after the first try that net.Dial answers without error, and it
    returns the error whose message contains the diagnostic message
    only once the timeout is reached before the next try is due, every
    try made having failed; it always returns one of the two. *)
Theorem waitForPort_polls_until_ready_or_timeout
    port network address d message :
  exists res,
    waitForPort net_Dial selectTimeoutFirst Duration_String
      port network address d message = Some res
    /\ paced 0 (attempts res)
    /\ Forall (fun a => (pollInterval <= began a <= d)%Z) (attempts res)
    /\ Forall (dialed net_Dial network (dialTarget address port))
         (attempts res)
    /\ ((waitErr res = None
         /\ exists pre a,
             attempts res = pre ++ [a] /\ allFailed pre
             /\ connected a = true
             /\ fst (net_Dial network (dialTarget address port) (began a))
                = None
             /\ returnedAt res = (began a + took a)%Z)
        \/ (exists e,
             waitErr res = Some e /\ contains e message
             /\ e = timeoutError Duration_String d message
             /\ allFailed (attempts res)
             /\ Forall (fun a =>
                          fst (net_Dial network (dialTarget address port)
                                 (began a)) <> None) (attempts res)
             /\ (d <= returnedAt res)%Z
             /\ returnedAt res = Z.max (lastReturn 0 (attempts res)) d
             /\ ((d < lastReturn 0 (attempts res) + pollInterval)%Z
                 \/ (d = lastReturn 0 (attempts res) + pollInterval)%Z
                    /\ selectTimeoutFirst d = true))).
Proof.
  destruct (@waitLoop_returns (waitFuel d) port network address d message 0 []
              (waitFuel_enough d))
    as (res & new & Hres & Hatt & Hpaced & Hle & Hcases).
  cbn [app] in Hatt. subst new.
  destruct (@waitLoop_faithful (waitFuel d) port network address d message
              0%Z [] res Hres) as (new & Hatt & Hdial & Hlate).
  cbn [app] in Hatt. subst new.
  exists res. split; [exact Hres|]. split; [exact Hpaced|].
  split.
  { pose proof (@paced_began 0%Z (attempts res) ltac:(lia) Hpaced) as Hge.
    rewrite List.Forall_forall in *. intros a Ha.
    specialize (Hge a Ha). specialize (Hle a Ha). cbn in Hge. lia. }
  split; [exact Hdial|].
  rewrite List.Forall_forall in Hdial.
  destruct Hcases as [(Hnil & pre & a & Hpre & Hfail & Hok & Hret)
                     | (Herr & Hall & Hd & _)].
  - left. split; [exact Hnil|]. exists pre, a.
    assert (Ha : In a (attempts res))
      by (rewrite Hpre; apply in_or_app; right; now left).
    destruct (Hdial a Ha) as [Hc _]. rewrite Hok in Hc.
    repeat split; try assumption.
    now destruct (fst (net_Dial network (dialTarget address port) (began a))).
  - right. exists (timeoutError Duration_String d message).
    destruct (Hlate ltac:(now rewrite Herr)) as (_ & Hat & Hdue).
    split; [exact Herr|]. split; [apply timeoutError_contains|].
    split; [reflexivity|]. split; [exact Hall|].
    split.
    { unfold allFailed in Hall. rewrite List.Forall_forall in *.
      intros a Ha. destruct (Hdial a Ha) as [Hc _]. rewrite (Hall a Ha) in Hc.
      now destruct (fst (net_Dial network (dialTarget address port) (began a))). }
    split; [exact Hd|]. split; [exact Hat | exact Hdue].
Qed.

End WaiterFacts.

(** * The statements on a concrete run *)

Import Scenario.

Lemma stateHandlerMiddleware_setup_responses_witness :
  let run body :=
    stateHandlerMiddleware decode handlers forward (setupRequest body) 0 in
  Path (setupRequest bodyGarbage) = providerStatesSetupPath
  /\ (responseStatus (traceOf (run bodyGarbage)) = Some 500%Z
      /\ count isStateHandler (traceOf (run bodyGarbage)) = 0)
  /\ (responseStatus (traceOf (run bodyUnknown)) = Some 200%Z
      /\ count isStateHandler (traceOf (run bodyUnknown)) = 0)
  /\ (count isStateHandler (traceOf (run bodyFoo)) = 1
      /\ In (EvStateHandler {| Name := "User foo exists" |})
           (traceOf (run bodyFoo))
      /\ responseStatus (traceOf (run bodyFoo)) = Some 200%Z)
  /\ responseStatus (traceOf (run bodyBroken)) = Some 500%Z.
Proof.
  intros run. split; [reflexivity|]. split; [|split; [|split]].
  - destruct (@stateHandlerMiddleware_setup_responses nat decode handlers
                forward (setupRequest bodyGarbage) 0 eq_refl) as (H & _ & _).
    destruct (H _ _ eq_refl) as (_ & Hs & Hc & _). split; assumption.
  - destruct (@stateHandlerMiddleware_setup_responses nat decode handlers
                forward (setupRequest bodyUnknown) 0 eq_refl) as (_ & H & _).
    destruct (H _ eq_refl eq_refl) as (_ & Hs & Hc & _). split; assumption.
  - destruct (@stateHandlerMiddleware_setup_responses nat decode handlers
                forward (setupRequest bodyFoo) 0 eq_refl) as (_ & _ & H).
    destruct (H _ handlerOk eq_refl eq_refl) as (Hc & Hin & _ & Hok & _).
    destruct (Hok eq_refl) as (_ & Hs). repeat split; assumption.
  - destruct (@stateHandlerMiddleware_setup_responses nat decode handlers
                forward (setupRequest bodyBroken) 0 eq_refl) as (_ & _ & H).
    destruct (H _ handlerFail eq_refl eq_refl) as (_ & _ & _ & _ & Hko).
    destruct (Hko ltac:(discriminate)) as (_ & Hs). exact Hs.
Defined.




Lemma stateHandlerMiddleware_ends_chain_witness :
  Path (setupRequest bodyFoo) = providerStatesSetupPath
  /\ stateHandlerMiddleware decode handlers forward (setupRequest bodyFoo) 0
     = stateHandlerMiddleware decode handlers quiet (setupRequest bodyFoo) 0
  /\ count isForward
       (traceOf (stateHandlerMiddleware decode handlers forward
                   (setupRequest bodyFoo) 0)) = 0.
Proof.
  split; [reflexivity|].
  destruct (@stateHandlerMiddleware_ends_chain nat decode handlers
              (setupRequest bodyFoo) 0 eq_refl) as (Hi & Hf).
  split; [apply Hi | apply Hf].
Defined.



(** C1, on the code: none of the three pre-flight failures is returned
    to the caller. A base URL that does not parse leaves [u] nil and the
    run panics; the error of the proxy is not looked at, so the run
    goes on to the wait (which fails on the unbound port, and which a
    replaced waiter lets through to the engine); a wait that times
    out ends the process in [log.Fatal], which prints the proxy's error
    and not the timeout, before [return portErr]. *)
Theorem verifyProviderRaw_preflight_errors_not_returned :
  (parse (ProviderBaseURL badRequest)
   = (None, Some "parse :8080: missing protocol scheme")
   /\ runWith proxyUp (dialFrom 0) badRequest = (Panicked, []))
  /\ (fst (runWith proxyDown (dialFrom 0) request) = Exited 1
      /\ engineCalls
           (snd (verifyProviderRaw decode parse hostname portOf proxyDown
                   (fun _ _ _ _ _ => None) engine verifier request tt)) = 1)
  /\ (waitForPortErr dialNever timeoutFirst durationString 54321
        "tcp" "localhost" (10 * Second) (proxyTimeoutMessage 54321)
      = Some ("Expected server to start < 10s. Timed out waiting for http "
              +:+ "verification proxy on port 54321 - check for errors")
      /\ fst (runWith proxyUp dialNever request) = Exited 1
      /\ last (snd (runWith proxyUp dialNever request)) = Some (EvFatal None)
      /\ engineCalls (snd (runWith proxyUp dialNever request)) = 0).
Proof.
  split; [split; reflexivity|].
  split; [split; vm_compute; reflexivity|].
  repeat split; vm_compute; reflexivity.
Qed.

Lemma engine_setup_url_witness :
  In (EvVerify (verificationRequest request 54321))
     (snd (runWith proxyUp (dialFrom 120000000) request))
  /\ exists opts port err,
      In (EvProxyStart opts port err)
         (snd (runWith proxyUp (dialFrom 120000000) request))
      /\ (ProviderStatesSetupURL request = ""
          /\ StateHandlers request <> ∅ ->
          ProviderStatesSetupURL (verificationRequest request 54321)
          = "http://localhost:" +:+ formatInt port +:+ "/__setup/")
      /\ (~ (ProviderStatesSetupURL request = ""
             /\ StateHandlers request <> ∅) ->
          ProviderStatesSetupURL (verificationRequest request 54321)
          = ProviderStatesSetupURL request).
Proof.
  assert (Hin : In (EvVerify (verificationRequest request 54321))
                  (snd (runWith proxyUp (dialFrom 120000000) request))).
  { right. right. left. reflexivity. }
  split; [exact Hin|].
  exact (@engine_setup_url nat unit unit decode parse hostname portOf proxyUp
           (waitForPortErr (dialFrom 120000000) timeoutFirst durationString)
           engine verifier request tt _ Hin).
Defined.

(** The claim of C8 as stated fails: the request the engine receives
    is not the original with only its two URLs replaced, since the
    hooks and state handlers of the original are not in it. *)
Lemma engine_request_only_urls_differ_counterexample :
  ~ (forall vr,
        In (EvVerify vr) (snd (runWith proxyUp (dialFrom 0) request)) ->
        vr = replaceURLs request (ProviderBaseURL vr)
               (ProviderStatesSetupURL vr)).
Proof.
  intros H.
  specialize (H (verificationRequest request 54321)).
  assert (Hin : In (EvVerify (verificationRequest request 54321))
                  (snd (runWith proxyUp (dialFrom 0) request))).
  { right. right. left. reflexivity. }
  apply H in Hin.
  apply (f_equal (@BeforeEach nat unit)) in Hin.
  discriminate Hin.
Qed.

Lemma engine_request_fields_witness :
  In (EvVerify (verificationRequest request 54321))
     (snd (runWith proxyUp (dialFrom 0) request))
  /\ exists opts port err,
      In (EvProxyStart opts port err)
         (snd (runWith proxyUp (dialFrom 0) request))
      /\ ProviderBaseURL (verificationRequest request 54321)
         = "http://localhost:" +:+ formatInt port
      /\ Tags (verificationRequest request 54321) = Tags request
      /\ BeforeEach (verificationRequest request 54321) = None.
Proof.
  assert (Hin : In (EvVerify (verificationRequest request 54321))
                  (snd (runWith proxyUp (dialFrom 0) request))).
  { right. right. left. reflexivity. }
  split; [exact Hin|].
  destruct (@engine_request_fields nat unit unit decode parse hostname portOf
              proxyUp (waitForPortErr (dialFrom 0) timeoutFirst durationString)
              engine verifier request tt _ Hin)
    as (opts & port & err & Hs & Hb & _ & _ & _ & _ & _ & Ht & _ & _ & _
        & _ & _ & _ & _ & _ & Hbe & _).
  exists opts, port, err. repeat split; assumption.
Defined.

(** The waiter on a port that opens 120ms after the call: two refused
    attempts, then success at 150ms. *)
Example waitForPort_ready_at_third_poll :
  waitForPort (dialFrom 120000000) timeoutFirst durationString
    54321 "tcp" "localhost" (10 * Second) "proxy"
  = Some {| waitErr := None;
            attempts := [mkAttempt 50000000 0 false;
                         mkAttempt 100000000 0 false;
                         mkAttempt 150000000 0 true];
            returnedAt := 150000000 |}.
Proof. vm_compute. reflexivity. Qed.

(** The waiter on a port that never opens, with a 120ms timeout: two
    refused attempts, then the timeout error at 120ms. *)
Example waitForPort_times_out :
  waitForPort dialNever timeoutFirst durationString
    54321 "tcp" "localhost" (120 * Millisecond) "proxy"
  = Some {| waitErr := Some "Expected server to start < 120ms. proxy";
            attempts := [mkAttempt 50000000 0 false;
                         mkAttempt 100000000 0 false];
            returnedAt := 120000000 |}.
Proof. vm_compute. reflexivity. Qed.

(** A timeout shorter than one interval: no attempt is made at all. *)
Example waitForPort_short_timeout :
  waitForPort (dialFrom 0) timeoutFirst durationString
    54321 "tcp" "localhost" (20 * Millisecond) "proxy"
  = Some {| waitErr := Some "Expected server to start < 20ms. proxy";
            attempts := [];
            returnedAt := 20000000 |}.
Proof. vm_compute. reflexivity. Qed.

(** * Further properties of the middlewares *)

Section HandlerExtras.

Context {U : Type}.
Variable json_Unmarshal :
  string -> stateHandlerAction -> option error * stateHandlerAction.

Implicit Types (h : Hook U) (next : Handler U) (r : Request) (u : U).
Implicit Types (sh : gmap string (StateHandler U)).

Lemma headersWritten_app (a b : list Event) :
  headersWritten (a ++ b) = headersWritten a ++ headersWritten b.
Proof.
  induction a as [|e a IH]; [reflexivity|].
  destruct e; cbn; now rewrite ?IH.
Qed.

Lemma headersWritten_hookFailure err :
  headersWritten (hookFailure err)
  = match err with Some _ => [StatusInternalServerError] | None => [] end.
Proof. now destruct err. Qed.

(** X12: a before-hook that fails does not stop the chain. On the setup
    path the next handler still runs, on the user state the hook left,
    after a WriteHeader(500) that fixes the response status whatever
    the next handler writes; in the pipeline the matched state handler
    is still called, and its own status comes second. *)
Theorem failing_before_hook_is_not_fatal (hb ha : Hook U) sh next r u e :
  Path r = providerStatesSetupPath ->
  fst (hb u) = Some e ->
  (traceOf (BeforeEachMiddleware hb next r u)
   = EvBeforeEach :: EvWriteHeader 500 :: traceOf (next r (snd (hb u)))
   /\ userOf (BeforeEachMiddleware hb next r u)
      = userOf (next r (snd (hb u)))
   /\ responseStatus (traceOf (BeforeEachMiddleware hb next r u))
      = Some 500%Z)
  /\ (forall st (sf : StateHandler U),
        json_Unmarshal (Body r) zeroAction = (None, st) ->
        sh !! State st = Some sf ->
        let pipeline :=
          BeforeEachMiddleware hb
            (AfterEachMiddleware ha
               (stateHandlerMiddleware json_Unmarshal sh next)) in
        let arg := {| Name := State st |} in
        traceOf (pipeline r u)
        = [EvBeforeEach; EvWriteHeader 500; EvStateHandler arg;
           EvWriteHeader (handlerStatus (fst (sf arg (snd (hb u)))))]
        /\ userOf (pipeline r u) = snd (sf arg (snd (hb u)))).
Proof.
  intros H He. split.
  - rewrite (BeforeEach_setup hb next r u H), He. repeat split.
  - intros st sf Hd Hl pipeline arg. subst pipeline arg.
    rewrite BeforeEach_setup by exact H.
    rewrite AfterEach_setup by exact H.
    rewrite (stateHandler_setup json_Unmarshal sh next r (snd (hb u)) H).
    rewrite Hd. cbv beta iota. rewrite Hl, He. split; reflexivity.
Qed.



(** X15: the state handler is found by the exact state name. On the
    setup path, registering or removing a handler under any other name
    changes nothing; a handler registered under the requested name is
    the one called, once; with that name removed no handler is called
    and the answer is 200. *)
Theorem state_handlers_are_looked_up_by_exact_name sh next r u st :
  Path r = providerStatesSetupPath ->
  json_Unmarshal (Body r) zeroAction = (None, st) ->
  let arg := {| Name := State st |} in
  (forall k (h : StateHandler U), k <> State st ->
      stateHandlerMiddleware json_Unmarshal (<[k:=h]> sh) next r u
      = stateHandlerMiddleware json_Unmarshal sh next r u)
  /\ (forall k, k <> State st ->
      stateHandlerMiddleware json_Unmarshal (delete k sh) next r u
      = stateHandlerMiddleware json_Unmarshal sh next r u)
  /\ (forall h : StateHandler U,
      stateHandlerMiddleware json_Unmarshal (<[State st:=h]> sh) next r u
      = (tt, snd (h arg u),
         [EvStateHandler arg; EvWriteHeader (handlerStatus (fst (h arg u)))]))
  /\ stateHandlerMiddleware json_Unmarshal (delete (State st) sh) next r u
     = (tt, u, [EvWriteHeader 200]).
Proof.
  intros H Hd arg. subst arg.
  repeat split; intros; rewrite !stateHandler_setup by exact H;
    rewrite Hd; cbv beta iota.
  - now rewrite lookup_insert_ne.
  - now rewrite lookup_delete_ne.
  - now rewrite lookup_insert_eq.
  - now rewrite lookup_delete_eq.
Qed.

(** X16: of what the decoder gives back, the middleware uses whether
    there was an error and the state name, nothing else: with two
    decoders that agree on these for the body, the runs are the same
    (the action and the text of the error play no part). *)
Theorem only_the_state_name_is_consulted
    (decode1 decode2 :
       string -> stateHandlerAction -> option error * stateHandlerAction)
    sh next r u :
  Path r = providerStatesSetupPath ->
  isPresent (fst (decode1 (Body r) zeroAction))
  = isPresent (fst (decode2 (Body r) zeroAction)) ->
  (fst (decode1 (Body r) zeroAction) = None ->
   State (snd (decode1 (Body r) zeroAction))
   = State (snd (decode2 (Body r) zeroAction))) ->
  stateHandlerMiddleware decode1 sh next r u
  = stateHandlerMiddleware decode2 sh next r u.
Proof.
  intros H He Hs. rewrite !stateHandler_setup by exact H.
  destruct (decode1 (Body r) zeroAction) as [[e1|] s1];
    destruct (decode2 (Body r) zeroAction) as [[e2|] s2];
    cbn in He, Hs; try discriminate He; [reflexivity|].
  now rewrite (Hs eq_refl).
Qed.

End HandlerExtras.

(** * Further properties of the orchestrator *)

(** X1: validateConfig never fails; it replaces a zero ClientTimeout by
    ten seconds and leaves any other value, negative ones included, as
    it is, so the timeout is never zero afterwards and a second call
    changes nothing. *)
Theorem validateConfig_defaults_once v :
  fst (validateConfig v) = None
  /\ ClientTimeout (snd (validateConfig v)) <> 0%Z
  /\ (ClientTimeout v = 0%Z ->
      ClientTimeout (snd (validateConfig v)) = 10000000000%Z)
  /\ (ClientTimeout v <> 0%Z -> snd (validateConfig v) = v)
  /\ validateConfig (snd (validateConfig v))
     = (None, snd (validateConfig v)).
Proof.
  unfold validateConfig.
  destruct (Z.eqb (ClientTimeout v) 0) eqn:E; cbn.
  - apply Z.eqb_eq in E. repeat split; try discriminate; congruence.
  - rewrite E. apply Z.eqb_neq in E. repeat split; congruence.
Qed.

Section OrchestratorExtras.

Context {U TLSConfig outputWriter : Type}.
Variable json_Unmarshal :
  string -> stateHandlerAction -> option error * stateHandlerAction.
Variable url_Parse : string -> option URL * option error.
Variables Hostname Port : URL -> string.
Variable HTTPReverseProxy : Options U TLSConfig -> Z * option error.
Variable waitForPortVar : Z -> string -> string -> Z -> string -> option error.
Variable verify : VerifyRequest U TLSConfig -> outputWriter -> option error.

Implicit Types (v : HTTPVerifier) (request vr : VerifyRequest U TLSConfig).
Implicit Types (writer : outputWriter).

Abbreviation raw := (verifyProviderRaw json_Unmarshal url_Parse Hostname Port
                       HTTPReverseProxy waitForPortVar verify).

(** Every run, case by case. *)
Lemma run_cases v request writer :
  (fst (url_Parse (ProviderBaseURL request)) = None
   /\ raw v request writer = (Panicked, []))
  \/ exists u opts port perr,
      fst (url_Parse (ProviderBaseURL request)) = Some u
      /\ opts = {| TargetAddress := Hostname u +:+ ":" +:+ Port u;
                   TargetScheme := Scheme u;
                   TargetPath := URLPath u;
                   Middleware_ := buildMiddleware json_Unmarshal request;
                   InternalRequestPathPrefix := providerStatesSetupPath;
                   OptCustomTLSConfig := CustomTLSConfig request |}
      /\ HTTPReverseProxy opts = (port, perr)
      /\ raw v request writer
         = let T := ClientTimeout (snd (validateConfig v)) in
           let message := proxyTimeoutMessage port in
           let portErr := waitForPortVar port "tcp" "localhost" T message in
           let t := [EvProxyStart opts port perr;
                     EvWaitForPort port T message portErr] in
           match portErr with
           | Some _ => (Exited 1, t ++ [EvFatal perr])
           | None =>
               (Returned (verify (verificationRequest request port) writer),
                t ++ [EvVerify (verificationRequest request port)])
           end.
Proof.
  unfold verifyProviderRaw.
  destruct (validateConfig v) as [e v'] eqn:Ev.
  pose proof (validateConfig_nil v) as Hn. rewrite Ev in Hn. cbn in Hn.
  subst e. cbn [snd].
  destruct (url_Parse _) as [[u|] perr0]; [right | left; split; reflexivity].
  destruct (HTTPReverseProxy _) as [port perr] eqn:Ep.
  eexists u, _, port, perr. split; [reflexivity|]. split; [reflexivity|].
  split; [exact Ep|]. reflexivity.
Qed.

(** X2: whatever verifyProviderRaw returns is the engine's verdict:
    when the call returns at all, the proxy was started once, the wait
    on its port came back nil, the engine was called exactly once, on
    the request built for that port, and its result is the value
    returned. *)
Theorem returned_error_is_the_engines v request writer e :
  fst (raw v request writer) = Returned e ->
  exists opts port perr,
    snd (raw v request writer)
    = [EvProxyStart opts port perr;
       EvWaitForPort port (ClientTimeout (snd (validateConfig v)))
         (proxyTimeoutMessage port) None;
       EvVerify (verificationRequest request port)]
    /\ e = verify (verificationRequest request port) writer
    /\ engineCalls (snd (raw v request writer)) = 1.
Proof.
  destruct (run_cases v request writer)
    as [[_ ->] | (u & opts & port & perr & _ & _ & _ & ->)];
    [discriminate|].
  cbv zeta.
  destruct (waitForPortVar _ _ _ _ _) as [pe|]; cbn; [discriminate|].
  intros [= <-]. exists opts, port, perr. repeat split.
Qed.

(** X3: the wait is always on the port the proxy gave back, whether or
    not the proxy reported an error, with the message naming that port
    and with a timeout that is never zero (ten seconds when
    ClientTimeout is zero); a run starts the proxy, waits and calls the
    engine at most once each. *)
Theorem wait_targets_the_proxy_port v request writer port T message portErr :
  In (EvWaitForPort port T message portErr) (snd (raw v request writer)) ->
  T <> 0%Z
  /\ T = (if Z.eqb (ClientTimeout v) 0 then 10000000000%Z else ClientTimeout v)
  /\ message = proxyTimeoutMessage port
  /\ portErr = waitForPortVar port "tcp" "localhost" T message
  /\ (exists opts perr,
        HTTPReverseProxy opts = (port, perr)
        /\ exists last,
            snd (raw v request writer)
            = [EvProxyStart opts port perr;
               EvWaitForPort port T message portErr; last])
  /\ engineCalls (snd (raw v request writer)) <= 1.
Proof.
  assert (HT : ClientTimeout (snd (validateConfig v)) <> 0%Z
               /\ ClientTimeout (snd (validateConfig v))
                  = (if Z.eqb (ClientTimeout v) 0 then 10000000000%Z
                     else ClientTimeout v)).
  { unfold validateConfig. destruct (Z.eqb (ClientTimeout v) 0) eqn:E; cbn.
    - split; [discriminate | reflexivity].
    - apply Z.eqb_neq in E. split; [exact E | reflexivity]. }
  destruct HT as [HT0 HT].
  destruct (run_cases v request writer)
    as [[_ ->] | (u & opts & port' & perr & _ & _ & Hp & ->)];
    [intros [] |].
  cbv zeta.
  destruct (waitForPortVar port' "tcp" "localhost" _ _) as [pe|] eqn:Ew;
    cbn; intros [H|[H|[H|[]]]]; try discriminate H;
    injection H as <- <- <- <-;
    (split; [exact HT0|]); (split; [exact HT|]);
    (split; [reflexivity|]); (split; [now rewrite Ew|]);
    (split; [exists opts, perr; split; [exact Hp | eexists; reflexivity]|]);
    lia.
Qed.

(** X4: when the engine is sent to the proxy for state setup (no setup
    URL given, state handlers registered), the URL it receives is its
    own base URL followed by the path prefix the proxy was started
    with, which is the path the state-handler middleware answers; that
    middleware, with the request's handlers, is in the list the proxy
    was given, while the engine's own request carries no handler. *)
Theorem engine_setup_url_is_served_by_the_proxy v request writer vr :
  In (EvVerify vr) (snd (raw v request writer)) ->
  ProviderStatesSetupURL request = "" ->
  StateHandlers request <> ∅ ->
  exists opts port perr,
    In (EvProxyStart opts port perr) (snd (raw v request writer))
    /\ ProviderStatesSetupURL vr
       = ProviderBaseURL vr +:+ InternalRequestPathPrefix opts
    /\ InternalRequestPathPrefix opts = providerStatesSetupPath
    /\ In (stateHandlerMiddleware json_Unmarshal (StateHandlers request))
         (Middleware_ opts)
    /\ StateHandlers vr = ∅.
Proof.
  intros Hin Hs Hne. apply nonempty_ltb in Hne.
  destruct (run_cases v request writer)
    as [[_ Hr] | (u & opts & port & perr & _ & Ho & _ & Hr)];
    rewrite Hr in Hin |- *; [destruct Hin|].
  cbv zeta in Hin |- *.
  destruct (waitForPortVar _ _ _ _ _) as [pe|]; cbn in Hin |- *;
    destruct Hin as [H|[H|[H|[]]]]; try discriminate H.
  injection H as <-.
  exists opts, port, perr. split; [now left|].
  subst opts. cbn [InternalRequestPathPrefix Middleware_ verificationRequest
                    ProviderStatesSetupURL ProviderBaseURL StateHandlers].
  unfold setupURL, buildMiddleware. rewrite Hs, Hne. cbn [String.eqb andb].
  split; [now rewrite append_assoc|]. split; [reflexivity|].
  split; [|reflexivity].
  destruct (BeforeEach request), (AfterEach request), (RequestFilter request);
    cbn; tauto.
Qed.

Abbreviation vp := (VerifyProvider json_Unmarshal url_Parse Hostname Port
                      HTTPReverseProxy waitForPortVar verify).

(** X5: VerifyProvider gives back what verifyProviderRaw does. When
    that call returns, the subtest "Provider pact verification" runs
    once and records the returned error, if any; when it panics or
    ends the process there is no subtest. So a failed subtest always
    means that the engine was called and returned an error. *)
Theorem VerifyProvider_reports_the_engine_verdict v (t : outputWriter) request :
  fst (fst (vp v t request)) = fst (raw v request t)
  /\ snd (fst (vp v t request)) = snd (raw v request t)
  /\ (forall err, fst (raw v request t) = Returned err ->
        snd (vp v t request)
        = [TRun "Provider pact verification"
             match err with Some e => [e] | None => [] end])
  /\ ((forall err, fst (raw v request t) <> Returned err) ->
        snd (vp v t request) = [])
  /\ (existsb subtestFailed (snd (vp v t request)) = true <->
      exists port e,
        In (EvVerify (verificationRequest request port)) (snd (raw v request t))
        /\ verify (verificationRequest request port) t = Some e).
Proof.
  unfold VerifyProvider.
  destruct (run_cases v request t)
    as [[_ Hr] | (u & opts & port & perr & _ & _ & _ & Hr)]; rewrite Hr.
  - cbn. repeat split; try discriminate; auto.
    intros (p & e & [] & _).
  - cbv zeta. destruct (waitForPortVar _ _ _ _ _) as [pe|]; cbn.
    + repeat split; try discriminate; auto.
      intros (p & e & [H|[H|[H|[]]]] & _); discriminate H.
    + destruct (verify (verificationRequest request port) t) as [e|] eqn:Ev;
        cbn.
      * repeat split; auto.
        -- now intros err [= <-].
        -- intros H. now destruct (H (Some e)).
        -- intros _. exists port, e. split; [|exact Ev]. right; right; now left.
      * repeat split; auto; try discriminate.
        -- now intros err [= <-].
        -- intros H. now destruct (H None).
        -- intros (p & e & [H|[H|[H|[]]]] & Hv); try discriminate H.
           assert (Heq : verificationRequest request port
                         = verificationRequest request p) by congruence.
           rewrite <- Heq, Ev in Hv. discriminate Hv.
Qed.

End OrchestratorExtras.

(** * Further properties of the readiness waiter *)

Section WaiterExtras.

Variable net_Dial : string -> string -> Z -> option error * N.
Variable selectTimeoutFirst : Z -> bool.
Variable Duration_String : Z -> string.

Abbreviation wloop := (waitLoop net_Dial selectTimeoutFirst Duration_String).
Abbreviation wait := (waitForPort net_Dial selectTimeoutFirst Duration_String).

(** Attempts paced from [start], none begun after [d], fit before [d]. *)
Lemma paced_length start d l :
  paced start l -> Forall (fun a => (began a <= d)%Z) l ->
  l = [] \/ (start + Z.of_nat (length l) * pollInterval <= d)%Z.
Proof.
  revert start. induction l as [|a l IH]; intros start Hp Hle; [now left|].
  right. destruct Hp as (Hb & Ht & Hp). inversion Hle as [|? ? Ha Hl]; subst.
  destruct (IH (began a + took a)%Z Hp Hl) as [-> | Hlen].
  - cbn [length]. lia.
  - cbn [length]. rewrite Nat2Z.inj_succ. lia.
Qed.

(** Every attempt the loop adds to its log is a call of [net_Dial] on
    the network and on address:port, at the time the attempt began. *)
Lemma waitLoop_attempts_dialed fuel port network address d message now log res :
  wloop fuel port network address d message now log = Some res ->
  Forall (dialed net_Dial network (dialTarget address port)) log ->
  Forall (dialed net_Dial network (dialTarget address port)) (attempts res).
Proof.
  revert now log. induction fuel as [|fuel IH]; intros now log; [discriminate|].
  cbn [waitLoop]. fold (dialTarget address port).
  destruct (Z.ltb d (now + pollInterval)
            || (Z.eqb d (now + pollInterval)
                && selectTimeoutFirst (now + pollInterval))).
  { intros [= <-] Hlog. exact Hlog. }
  destruct (net_Dial network (dialTarget address port) (now + pollInterval))
    as [err dur] eqn:Ed.
  assert (Hnew : forall ok, ok = match err with None => true | Some _ => false end ->
            Forall (dialed net_Dial network (dialTarget address port)) log ->
            Forall (dialed net_Dial network (dialTarget address port))
              (log ++ [mkAttempt (now + pollInterval) (Z.of_N dur) ok])).
  { intros ok -> Hlog. apply Forall_app. split; [exact Hlog|].
    constructor; [|constructor]. unfold dialed. cbn [began connected took].
    rewrite Ed. split; reflexivity. }
  destruct err as [e|].
  - intros Hres Hlog. apply (IH _ _ Hres). now apply Hnew.
  - intros [= <-] Hlog. cbn [attempts]. now apply Hnew.
Qed.

(** With a timeout under one interval the waiter gives up at once. *)
Lemma waitForPortErr_short port network address d message :
  (d < pollInterval)%Z ->
  waitForPortErr net_Dial selectTimeoutFirst Duration_String
    port network address d message
  = Some (timeoutError Duration_String d message).
Proof.
  intros Hd. unfold waitForPortErr, waitForPort, waitFuel. cbn [waitLoop].
  change (0 + pollInterval)%Z with pollInterval.
  apply Z.ltb_lt in Hd. now rewrite Hd.
Qed.

(** X6: waitForPort makes at most timeout/50ms connection attempts. In
    particular a timeout shorter than 50ms (or negative) makes none:
    the timeout error comes back, at the timeout if that is positive
    and at once otherwise, even when the port is open. *)
Theorem attempts_are_bounded_by_the_timeout port network address d message :
  exists res,
    wait port network address d message = Some res
    /\ (Z.of_nat (length (attempts res)) * pollInterval <= Z.max 0 d)%Z
    /\ ((d < pollInterval)%Z ->
        res = {| waitErr := Some (timeoutError Duration_String d message);
                 attempts := [];
                 returnedAt := Z.max 0 d |}).
Proof.
  destruct (@waitLoop_returns net_Dial selectTimeoutFirst Duration_String
              (waitFuel d) port network address d message 0 []
              (waitFuel_enough d))
    as (res & new & Hres & Hatt & Hpaced & Hle & _).
  cbn [app] in Hatt. subst new.
  exists res. split; [exact Hres|]. split.
  - destruct (@paced_length 0%Z d (attempts res) Hpaced Hle) as [-> | Hlen];
      [cbn; lia | lia].
  - intros Hd. unfold waitForPort, waitFuel in Hres. cbn [waitLoop] in Hres.
    change (0 + pollInterval)%Z with pollInterval in Hres.
    apply Z.ltb_lt in Hd. rewrite Hd in Hres. cbn in Hres.
    now injection Hres as <-.
Qed.

(** X11: what waitForPort returns is what the network answered. Every
    attempt is one call of net.Dial on the given network and on
    address:port; nil is returned only when such a call, made between
    50ms and the timeout, returned no error, and the timeout error
    only when every call made returned one. *)
Theorem result_reflects_the_dials port network address d message :
  exists res,
    wait port network address d message = Some res
    /\ Forall (dialed net_Dial network (dialTarget address port))
         (attempts res)
    /\ (waitErr res = None ->
        exists t, (pollInterval <= t <= d)%Z
                  /\ fst (net_Dial network (dialTarget address port) t) = None)
    /\ (waitErr res <> None ->
        Forall (fun a =>
                  fst (net_Dial network (dialTarget address port) (began a))
                  <> None) (attempts res)).
Proof.
  destruct (@waitLoop_returns net_Dial selectTimeoutFirst Duration_String
              (waitFuel d) port network address d message 0 []
              (waitFuel_enough d))
    as (res & new & Hres & Hatt & Hpaced & Hle & Hcases).
  cbn [app] in Hatt. subst new.
  pose proof (@waitLoop_attempts_dialed (waitFuel d) port network address d
                message 0%Z [] res Hres (List.Forall_nil _))
    as Hdial.
  pose proof (@paced_began 0%Z (attempts res) ltac:(lia) Hpaced) as Hge.
  exists res. split; [exact Hres|]. split; [exact Hdial|].
  rewrite !List.Forall_forall in *.
  split.
  - intros Hnil.
    destruct Hcases as [(_ & pre & a & Hpre & _ & Hok & _) | (Herr & _)];
      [|congruence].
    assert (Ha : In a (attempts res))
      by (rewrite Hpre; apply in_or_app; right; now left).
    exists (began a). split.
    + specialize (Hge a Ha). specialize (Hle a Ha). cbn in Hge. lia.
    + destruct (Hdial a Ha) as [Hc _]. rewrite Hok in Hc.
      now destruct (fst (net_Dial network (dialTarget address port) (began a))).
  - intros Herr a Ha.
    destruct Hcases as [(Hnil & _) | (_ & Hall & _)]; [congruence|].
    unfold allFailed in Hall. rewrite List.Forall_forall in Hall.
    destruct (Hdial a Ha) as [Hc _]. rewrite (Hall a Ha) in Hc.
    now destruct (fst (net_Dial network (dialTarget address port) (began a))).
Qed.

(** The loop looks at the network only through the answers for
    address:port. *)
Lemma waitLoop_ext
    (dial2 : string -> string -> Z -> option error * N)
    fuel port network address d message now log :
  (forall t, net_Dial network (dialTarget address port) t
             = dial2 network (dialTarget address port) t) ->
  wloop fuel port network address d message now log
  = waitLoop dial2 selectTimeoutFirst Duration_String
      fuel port network address d message now log.
Proof.
  intros Hext. revert now log.
  induction fuel as [|fuel IH]; intros now log; [reflexivity|].
  cbn [waitLoop]. fold (dialTarget address port). rewrite <- Hext.
  destruct (Z.ltb d (now + pollInterval)
            || (Z.eqb d (now + pollInterval)
                && selectTimeoutFirst (now + pollInterval)));
    [reflexivity|].
  destruct (net_Dial network (dialTarget address port) (now + pollInterval))
    as [[e|] dur]; [apply IH | reflexivity].
Qed.

(** X9: waitForPort dials nothing but address:port on the given
    network: two networks that answer alike there give the same
    result, attempt for attempt, whatever they answer elsewhere. *)
Theorem only_the_target_is_dialed
    (dial2 : string -> string -> Z -> option error * N)
    port network address d message :
  (forall t, net_Dial network (dialTarget address port) t
             = dial2 network (dialTarget address port) t) ->
  wait port network address d message
  = waitForPort dial2 selectTimeoutFirst Duration_String
      port network address d message.
Proof. intros Hext. unfold waitForPort. now apply waitLoop_ext. Qed.

(** The loop on a port that opens at [T] and stays open, with
    connections that take no time. *)
Lemma waitLoop_ready T fuel port network address d message now log :
  (forall t,
      snd (net_Dial network (dialTarget address port) t) = 0%N
      /\ (fst (net_Dial network (dialTarget address port) t) = None
          <-> (T <= t)%Z)) ->
  (Z.max 0 T + pollInterval < d)%Z ->
  (0 <= now <= Z.max 0 T)%Z ->
  (Z.max 0 (d - now) < Z.of_nat fuel * pollInterval)%Z ->
  exists res,
    wloop fuel port network address d message now log = Some res
    /\ waitErr res = None
    /\ (T <= returnedAt res <= Z.max 0 T + pollInterval)%Z
    /\ (pollInterval <= returnedAt res)%Z.
Proof.
  assert (Hi : pollInterval = 50000000%Z) by reflexivity.
  intros Hdial Hd. revert now log.
  induction fuel as [|fuel IH]; intros now log Hnow Hfuel.
  { cbn in Hfuel. lia. }
  cbn [waitLoop]. fold (dialTarget address port).
  assert (Hlt : Z.ltb d (now + pollInterval) = false) by (apply Z.ltb_ge; lia).
  assert (Heq : Z.eqb d (now + pollInterval) = false) by (apply Z.eqb_neq; lia).
  rewrite Hlt, Heq. cbn [orb andb].
  destruct (Hdial (now + pollInterval)%Z) as [Hdur Hok].
  destruct (net_Dial network (dialTarget address port) (now + pollInterval))
    as [[e|] dur]; cbn [fst snd] in Hdur, Hok; subst dur.
  - assert (Hbefore : (now + pollInterval < T)%Z).
    { destruct (Z.lt_ge_cases (now + pollInterval) T) as [H|H]; [exact H|].
      apply Hok in H. discriminate H. }
    apply IH; [cbn; lia|]. rewrite Nat2Z.inj_succ in Hfuel. cbn. lia.
  - eexists. split; [reflexivity|]. cbn [waitErr returnedAt].
    split; [reflexivity|]. pose proof (proj1 Hok eq_refl). cbn. lia.
Qed.

(** X10: when the port opens at time T and stays open, connections
    take no time and the timeout leaves room for one more interval,
    waitForPort returns nil, not before T and at most 50ms after T (at
    50ms when the port was open from the start). *)
Theorem ready_within_one_interval T port network address d message :
  (forall t,
      snd (net_Dial network (dialTarget address port) t) = 0%N
      /\ (fst (net_Dial network (dialTarget address port) t) = None
          <-> (T <= t)%Z)) ->
  (Z.max 0 T + pollInterval < d)%Z ->
  exists res,
    wait port network address d message = Some res
    /\ waitErr res = None
    /\ (T <= returnedAt res <= Z.max 0 T + pollInterval)%Z
    /\ (pollInterval <= returnedAt res)%Z.
Proof.
  intros Hdial Hd. unfold waitForPort.
  apply (@waitLoop_ready T); [exact Hdial | exact Hd | lia |].
  apply waitFuel_enough.
Qed.

End WaiterExtras.

(** * The orchestrator with the waiter of the package *)

Section DefaultWaiterRun.

Context {U TLSConfig outputWriter : Type}.
Variable json_Unmarshal :
  string -> stateHandlerAction -> option error * stateHandlerAction.
Variable url_Parse : string -> option URL * option error.
Variables Hostname Port : URL -> string.
Variable HTTPReverseProxy : Options U TLSConfig -> Z * option error.
Variable verify : VerifyRequest U TLSConfig -> outputWriter -> option error.
Variable net_Dial : string -> string -> Z -> option error * N.
Variable selectTimeoutFirst : Z -> bool.
Variable Duration_String : Z -> string.

Abbreviation rawDefault :=
  (verifyProviderRaw json_Unmarshal url_Parse Hostname Port HTTPReverseProxy
     (waitForPortErr net_Dial selectTimeoutFirst Duration_String) verify).

(** X7: a ClientTimeout that is not zero and is under 50ms (negative
    ones included) can never succeed: the wait gives up before its
    first attempt, so with a base URL that parses the run ends in
    log.Fatal, and in no case is the engine called or a value
    returned, however early the proxy is up. *)
Theorem short_client_timeout_never_reaches_engine
    (v : HTTPVerifier) (request : VerifyRequest U TLSConfig)
    (writer : outputWriter) :
  ClientTimeout v <> 0%Z ->
  (ClientTimeout v < pollInterval)%Z ->
  engineCalls (snd (rawDefault v request writer)) = 0
  /\ (forall e, fst (rawDefault v request writer) <> Returned e)
  /\ (fst (url_Parse (ProviderBaseURL request)) <> None ->
      fst (rawDefault v request writer) = Exited 1).
Proof.
  intros Hnz Hshort.
  assert (Hv : snd (validateConfig v) = v).
  { unfold validateConfig. apply Z.eqb_neq in Hnz. now rewrite Hnz. }
  destruct (@run_cases U TLSConfig outputWriter json_Unmarshal url_Parse
              Hostname Port HTTPReverseProxy
              (waitForPortErr net_Dial selectTimeoutFirst Duration_String)
              verify v request writer)
    as [[Hu ->] | (u & opts & port & perr & Hu & _ & _ & ->)].
  - cbn. repeat split; [discriminate | congruence].
  - cbv zeta. rewrite Hv, waitForPortErr_short by exact Hshort. cbn.
    repeat split; discriminate.
Qed.

(** X8: the run reaches the engine once the proxy port is open. With a
    base URL that parses, a proxy port that accepts connections from
    time T on (connections taking no time) and a timeout that leaves
    one interval after T, the wait returns nil, the engine is called
    once on the request for that port and its verdict is returned,
    whether or not the proxy reported an error. *)
Theorem engine_is_reached_once_the_port_opens
    (v : HTTPVerifier) (request : VerifyRequest U TLSConfig)
    (writer : outputWriter) u perr port proxyErr T :
  url_Parse (ProviderBaseURL request) = (Some u, perr) ->
  HTTPReverseProxy
    {| TargetAddress := Hostname u +:+ ":" +:+ Port u;
       TargetScheme := Scheme u;
       TargetPath := URLPath u;
       Middleware_ := buildMiddleware json_Unmarshal request;
       InternalRequestPathPrefix := providerStatesSetupPath;
       OptCustomTLSConfig := CustomTLSConfig request |}
  = (port, proxyErr) ->
  (forall t,
      snd (net_Dial "tcp" (dialTarget "localhost" port) t) = 0%N
      /\ (fst (net_Dial "tcp" (dialTarget "localhost" port) t) = None
          <-> (T <= t)%Z)) ->
  (Z.max 0 T + pollInterval < ClientTimeout (snd (validateConfig v)))%Z ->
  fst (rawDefault v request writer)
  = Returned (verify (verificationRequest request port) writer)
  /\ engineCalls (snd (rawDefault v request writer)) = 1
  /\ last (snd (rawDefault v request writer))
     = Some (EvVerify (verificationRequest request port)).
Proof.
  intros Hu Hp Hdial Hd.
  destruct (@run_cases U TLSConfig outputWriter json_Unmarshal url_Parse
              Hostname Port HTTPReverseProxy
              (waitForPortErr net_Dial selectTimeoutFirst Duration_String)
              verify v request writer)
    as [[Hu' _] | (u' & opts & port' & perr' & Hu' & Ho & Hp' & ->)];
    rewrite Hu in Hu'; cbn in Hu'; [discriminate|].
  injection Hu' as <-. subst opts. rewrite Hp in Hp'. injection Hp' as <- <-.
  cbv zeta.
  assert (Hw : waitForPortErr net_Dial selectTimeoutFirst Duration_String
                 port "tcp" "localhost" (ClientTimeout (snd (validateConfig v)))
                 (proxyTimeoutMessage port) = None).
  { unfold waitForPortErr, waitForPort.
    destruct (@waitLoop_ready net_Dial selectTimeoutFirst Duration_String T
                (waitFuel (ClientTimeout (snd (validateConfig v))))
                port "tcp" "localhost" (ClientTimeout (snd (validateConfig v)))
                (proxyTimeoutMessage port) 0%Z [] Hdial Hd ltac:(lia)
                (waitFuel_enough _))
      as (res & -> & Hnil & _).
    exact Hnil. }
  rewrite Hw. cbn. repeat split.
Qed.

End DefaultWaiterRun.

(** * The further properties on a concrete run *)

Lemma failing_before_hook_is_not_fatal_witness :
  Path (setupRequest bodyFoo) = providerStatesSetupPath
  /\ fst (hookFail 0) = Some "hook failed"
  /\ traceOf
       (BeforeEachMiddleware hookFail
          (AfterEachMiddleware hookOk
             (stateHandlerMiddleware decode handlers forward))
          (setupRequest bodyFoo) 0)
     = [EvBeforeEach; EvWriteHeader 500;
        EvStateHandler {| Name := "User foo exists" |}; EvWriteHeader 200].
Proof.
  split; [reflexivity|]. split; [reflexivity|].
  destruct (failing_before_hook_is_not_fatal decode hookFail hookOk handlers
              forward (setupRequest bodyFoo) 0 eq_refl eq_refl) as (_ & H).
  destruct (H _ handlerOk eq_refl eq_refl) as (Ht & _). exact Ht.
Defined.



Lemma state_handlers_are_looked_up_by_exact_name_witness :
  Path (setupRequest bodyFoo) = providerStatesSetupPath
  /\ decode (Body (setupRequest bodyFoo)) zeroAction
     = (None, {| Action := "setup"; State := "User foo exists" |})
  /\ stateHandlerMiddleware decode (<["Other" := handlerFail]> handlers)
       forward (setupRequest bodyFoo) 0
     = stateHandlerMiddleware decode handlers forward (setupRequest bodyFoo) 0
  /\ stateHandlerMiddleware decode (delete "User foo exists" handlers)
       forward (setupRequest bodyFoo) 0
     = (tt, 0, [EvWriteHeader 200]).
Proof.
  split; [reflexivity|]. split; [reflexivity|].
  destruct (state_handlers_are_looked_up_by_exact_name decode handlers forward
              (setupRequest bodyFoo) 0 eq_refl eq_refl) as (Hi & _ & _ & Hd).
  split; [apply Hi; discriminate | exact Hd].
Defined.

Lemma only_the_state_name_is_consulted_witness :
  Path (setupRequest bodyFoo) = providerStatesSetupPath
  /\ Action (snd (decode bodyFoo zeroAction))
     <> Action (snd (decodeTeardown bodyFoo zeroAction))
  /\ stateHandlerMiddleware decode handlers forward (setupRequest bodyFoo) 0
     = stateHandlerMiddleware decodeTeardown handlers forward
         (setupRequest bodyFoo) 0.
Proof.
  split; [reflexivity|]. split; [discriminate|].
  exact (only_the_state_name_is_consulted decode decodeTeardown handlers
           forward (setupRequest bodyFoo) 0 eq_refl eq_refl
           (fun _ => eq_refl)).
Defined.

Lemma returned_error_is_the_engines_witness :
  fst (runWith proxyUp (dialFrom 120000000) request) = Returned None
  /\ exists opts port perr,
      snd (runWith proxyUp (dialFrom 120000000) request)
      = [EvProxyStart opts port perr;
         EvWaitForPort port (ClientTimeout (snd (validateConfig verifier)))
           (proxyTimeoutMessage port) None;
         EvVerify (verificationRequest request port)]
      /\ None = engine (verificationRequest request port) tt
      /\ engineCalls (snd (runWith proxyUp (dialFrom 120000000) request)) = 1.
Proof.
  assert (Hr : fst (runWith proxyUp (dialFrom 120000000) request)
               = Returned None) by (vm_compute; reflexivity).
  split; [exact Hr|].
  exact (returned_error_is_the_engines decode parse hostname portOf proxyUp
           (waitForPortErr (dialFrom 120000000) timeoutFirst durationString)
           engine verifier request tt Hr).
Defined.

Lemma wait_targets_the_proxy_port_witness :
  In (EvWaitForPort 54321 10000000000 (proxyTimeoutMessage 54321) None)
     (snd (runWith proxyUp (dialFrom 120000000) request))
  /\ (10000000000 <> 0)%Z
  /\ engineCalls (snd (runWith proxyUp (dialFrom 120000000) request)) <= 1.
Proof.
  assert (Hin : In (EvWaitForPort 54321 10000000000
                      (proxyTimeoutMessage 54321) None)
                  (snd (runWith proxyUp (dialFrom 120000000) request))).
  { right. left. vm_compute. reflexivity. }
  split; [exact Hin|].
  destruct (wait_targets_the_proxy_port decode parse hostname portOf proxyUp
              (waitForPortErr (dialFrom 120000000) timeoutFirst durationString)
              engine verifier request tt _ _ _ _ Hin)
    as (Hnz & _ & _ & _ & _ & Hc).
  split; [exact Hnz | exact Hc].
Defined.

Lemma handlers_non_empty : StateHandlers request <> ∅.
Proof. apply insert_non_empty. Qed.

Lemma engine_setup_url_is_served_by_the_proxy_witness :
  In (EvVerify (verificationRequest request 54321))
     (snd (runWith proxyUp (dialFrom 0) request))
  /\ ProviderStatesSetupURL request = ""
  /\ StateHandlers request <> ∅
  /\ exists opts port perr,
      In (EvProxyStart opts port perr)
         (snd (runWith proxyUp (dialFrom 0) request))
      /\ ProviderStatesSetupURL (verificationRequest request 54321)
         = ProviderBaseURL (verificationRequest request 54321)
           +:+ InternalRequestPathPrefix opts
      /\ InternalRequestPathPrefix opts = providerStatesSetupPath
      /\ In (stateHandlerMiddleware decode (StateHandlers request))
           (Middleware_ opts)
      /\ StateHandlers (verificationRequest request 54321) = ∅.
Proof.
  assert (Hin : In (EvVerify (verificationRequest request 54321))
                  (snd (runWith proxyUp (dialFrom 0) request))).
  { right. right. left. reflexivity. }
  split; [exact Hin|]. split; [reflexivity|].
  split; [exact handlers_non_empty|].
  exact (engine_setup_url_is_served_by_the_proxy decode parse hostname portOf
           proxyUp (waitForPortErr (dialFrom 0) timeoutFirst durationString)
           engine verifier request tt _ Hin eq_refl handlers_non_empty).
Defined.

(** The network [dialFrom live], seen at localhost:54321. *)
Lemma dialFrom_opens live t :
  snd (dialFrom live "tcp" (dialTarget "localhost" 54321) t) = 0%N
  /\ (fst (dialFrom live "tcp" (dialTarget "localhost" 54321) t) = None
      <-> (live <= t)%Z).
Proof.
  unfold dialFrom.
  change (String.eqb (dialTarget "localhost" 54321) "localhost:54321")
    with true.
  cbn [andb]. destruct (Z.leb_spec live t); cbn; split; try reflexivity;
    split; intros; try reflexivity; try discriminate; lia.
Qed.

Lemma dialAlso_agrees live t :
  dialFrom live "tcp" (dialTarget "localhost" 54321) t
  = dialAlso live "tcp" (dialTarget "localhost" 54321) t.
Proof.
  unfold dialAlso.
  change (String.eqb (dialTarget "localhost" 54321) "localhost:54321")
    with true.
  reflexivity.
Qed.

Lemma only_the_target_is_dialed_witness :
  (forall t, dialFrom 120000000 "tcp" (dialTarget "localhost" 54321) t
             = dialAlso 120000000 "tcp" (dialTarget "localhost" 54321) t)
  /\ dialFrom 120000000 "tcp" "localhost:80" 0
     <> dialAlso 120000000 "tcp" "localhost:80" 0
  /\ waitForPort (dialFrom 120000000) timeoutFirst durationString
       54321 "tcp" "localhost" (10 * Second) "proxy"
     = waitForPort (dialAlso 120000000) timeoutFirst durationString
         54321 "tcp" "localhost" (10 * Second) "proxy".
Proof.
  split; [exact (dialAlso_agrees 120000000)|]. split; [discriminate|].
  exact (only_the_target_is_dialed (dialFrom 120000000) timeoutFirst
           durationString (dialAlso 120000000) 54321 "tcp" "localhost"
           (10 * Second) "proxy" (dialAlso_agrees 120000000)).
Defined.

Lemma ready_within_one_interval_witness :
  (Z.max 0 120000000 + pollInterval < 10 * Second)%Z
  /\ exists res,
      waitForPort (dialFrom 120000000) timeoutFirst durationString
        54321 "tcp" "localhost" (10 * Second) "proxy" = Some res
      /\ waitErr res = None
      /\ (120000000 <= returnedAt res
          <= Z.max 0 120000000 + pollInterval)%Z
      /\ (pollInterval <= returnedAt res)%Z.
Proof.
  assert (Hd : (Z.max 0 120000000 + pollInterval < 10 * Second)%Z)
    by reflexivity.
  split; [exact Hd|].
  exact (ready_within_one_interval (dialFrom 120000000) timeoutFirst
           durationString 54321 "tcp" "localhost" "proxy"
           (dialFrom_opens 120000000) Hd).
Defined.

Lemma short_client_timeout_never_reaches_engine_witness :
  ClientTimeout hastyVerifier <> 0%Z
  /\ (ClientTimeout hastyVerifier < pollInterval)%Z
  /\ engineCalls
       (snd (verifyProviderRaw decode parse hostname portOf proxyUp
               (waitForPortErr (dialFrom 0) timeoutFirst durationString)
               engine hastyVerifier request tt)) = 0
  /\ fst (verifyProviderRaw decode parse hostname portOf proxyUp
            (waitForPortErr (dialFrom 0) timeoutFirst durationString)
            engine hastyVerifier request tt) = Exited 1.
Proof.
  assert (Hnz : ClientTimeout hastyVerifier <> 0%Z) by discriminate.
  assert (Hlt : (ClientTimeout hastyVerifier < pollInterval)%Z) by reflexivity.
  split; [exact Hnz|]. split; [exact Hlt|].
  destruct (short_client_timeout_never_reaches_engine decode parse hostname
              portOf proxyUp engine (dialFrom 0) timeoutFirst durationString
              hastyVerifier request tt Hnz Hlt) as (Hc & _ & He).
  split; [exact Hc|]. apply He. discriminate.
Defined.

Lemma engine_is_reached_once_the_port_opens_witness :
  parse (ProviderBaseURL request)
  = (Some {| Scheme := "http"; Host := "localhost:8080"; URLPath := "" |},
     None)
  /\ (Z.max 0 120000000 + pollInterval
      < ClientTimeout (snd (validateConfig verifier)))%Z
  /\ fst (runWith proxyUp (dialFrom 120000000) request)
     = Returned (engine (verificationRequest request 54321) tt)
  /\ engineCalls (snd (runWith proxyUp (dialFrom 120000000) request))
     = 1.
Proof.
  assert (Hd : (Z.max 0 120000000 + pollInterval
                < ClientTimeout (snd (validateConfig verifier)))%Z)
    by reflexivity.
  split; [reflexivity|]. split; [exact Hd|].
  destruct (engine_is_reached_once_the_port_opens decode parse hostname portOf
              proxyUp engine (dialFrom 120000000) timeoutFirst
              durationString verifier request tt
              (u := {| Scheme := "http"; Host := "localhost:8080";
                       URLPath := "" |})
              (perr := None) (port := 54321%Z)
              (proxyErr := None)
              eq_refl eq_refl (dialFrom_opens 120000000) Hd)
    as (Hf & Hc & _).
  split; [exact Hf | exact Hc].
Defined.
